(** * pyGAPS: BET surface area and the Henry and Virial isotherm models

    A shallow embedding of
      - [pygaps/calculations/bet.py]  ([area_BET], [area_BET_raw], the
        Roquerol and BET transforms, [bet_optimisation], [bet_parameters]),
      - [pygaps/calculations/models_isotherm/henry.py]  (class [Henry]),
      - [pygaps/calculations/models_isotherm/virial.py] (class [Virial]),
      - [adsutils/classes/isotherm.py] (class [Isotherm]).

    Numbers.  Python floats are read as real numbers: [R] with its field
    operations, [sqrt], [exp] and [ln].  Rounding, infinities and NaN are
    outside the model, so every statement below is about the arithmetic the
    code writes down, not about its binary64 evaluation.  Where the code
    can produce a complex number ([scipy.sqrt] of a negative float), the
    value is a [number]: a float or a complex number.

    Effects.  A Python call either returns a value or raises; besides, it
    may emit warnings through [warnings.warn] and mutate objects it was
    handed.  Raising is the [outcome] type; the warnings, which leave
    through Python's process-wide warnings machinery and are no part of the
    value returned, are a log kept beside the outcome; and a mutated
    object is passed through explicitly. *)

From Stdlib Require Import Reals Lra ZArith Lia QArith_base Qreals.
From stdpp Require Import base option list strings gmap.

Open Scope R_scope.

(* ===================================================================== *)
(** ** The Python fragment the sources use *)
(* ===================================================================== *)

Module Py.

(** The exceptions that the embedded code raises or lets through. *)
Inductive exn : Type :=
| Exception (msg : string)   (* [raise Exception("...")] *)
| IndexError                 (* an array index out of bounds *)
| KeyError (key : string)    (* a missing dictionary key *)
| ValueError                 (* numpy and scipy argument errors *)
| NotImplementedError
| TypeError                  (* a call whose arguments do not fit the signature *)
| OverflowError.             (* [int] of an infinite float *)

Inductive outcome (A : Type) : Type :=
| Return (a : A)
| Raise (e : exn).
Arguments Return {A} a.
Arguments Raise {A} e.

Definition returned {A} (o : outcome A) : Prop := ∃ a, o = Return a.

(** A computation that may warn: the messages handed to [warnings.warn],
    oldest first, and how the computation ended. *)
Definition W (A : Type) : Type := (list string * outcome A)%type.

(** The two sides of such a computation.  [warned] is what went to
    [warnings.warn]: it reaches whoever listens to the warnings of the
    process, not the caller of the function.  [result] is what the caller
    receives: the value returned, or the exception. *)
Definition warned {A} (m : W A) : list string := m.1.
Definition result {A} (m : W A) : outcome A := m.2.

Definition ret {A} (a : A) : W A := ([], Return a).
Definition raise {A} (e : exn) : W A := ([], Raise e).
Definition warn (msg : string) : W unit := ([msg], Return tt).
Definition lift {A} (o : outcome A) : W A := ([], o).

Definition bind {A B} (m : W A) (k : A → W B) : W B :=
  match m with
  | (w, Return a) => let '(w', o) := k a in (w ++ w', o)
  | (w, Raise e) => (w, Raise e)
  end.

#[global] Instance W_ret : MRet W := @ret.
#[global] Instance W_bind : MBind W := λ A B k m, bind m k.

(** The same for computations that only return or raise. *)
Definition outcome_bind {A B} (o : outcome A) (k : A → outcome B) : outcome B :=
  match o with
  | Return a => k a
  | Raise e => Raise e
  end.

#[global] Instance outcome_ret : MRet outcome := @Return.
#[global] Instance outcome_mbind : MBind outcome := λ A B k o, outcome_bind o k.

(** A method that assigns to the attributes of [self]: from the object
    before the call to the object after it and how the call ended. *)
Definition St (S A : Type) : Type := S → S * outcome A.

Definition st_bind {S A B} (m : St S A) (k : A → St S B) : St S B :=
  λ s, match m s with
       | (s', Return a) => k a s'
       | (s', Raise e) => (s', Raise e)
       end.

#[global] Instance St_ret {S} : MRet (St S) := λ A a s, (s, Return a).
#[global] Instance St_bind {S} : MBind (St S) := λ A B k m, st_bind m k.

(** A computation that does not touch the object. *)
Definition pure {S A} (o : outcome A) : St S A := λ s, (s, o).
(** An assignment to the object. *)
Definition modify {S} (f : S → S) : St S unit := λ s, (f s, Return tt).

(** [if cond: warnings.warn(msg)] *)
Definition warn_if (cond : bool) (msg : string) : W unit :=
  if cond then warn msg else ret tt.

(** *** Comparisons of floats

    [x < y] and [x > y] are decided, so that the tests of the code are the
    booleans [bool_decide (x < y)] and [bool_decide (x > y)]. *)

#[global] Instance Rlt_decision (x y : R) : Decision (x < y) := Rlt_dec x y.
#[global] Instance Rgt_decision (x y : R) : Decision (x > y) := Rgt_dec x y.

(** *** Numbers that may be complex

    A float, or a complex number with its real and imaginary part.  The
    arithmetic is Python's: two floats give a float, and an operation
    with a complex operand gives a complex number. *)
Inductive number : Type :=
| Float (x : R)
| Complex (re im : R).

Definition re (z : number) : R :=
  match z with Float x => x | Complex a _ => a end.
Definition im (z : number) : R :=
  match z with Float _ => 0 | Complex _ b => b end.

Definition number_add (z w : number) : number :=
  match z, w with
  | Float x, Float y => Float (x + y)
  | _, _ => Complex (re z + re w) (im z + im w)
  end.
Definition number_sub (z w : number) : number :=
  match z, w with
  | Float x, Float y => Float (x - y)
  | _, _ => Complex (re z - re w) (im z - im w)
  end.
Definition number_mul (z w : number) : number :=
  match z, w with
  | Float x, Float y => Float (x * y)
  | _, _ => Complex (re z * re w - im z * im w) (re z * im w + im z * re w)
  end.
Definition number_div (z w : number) : number :=
  match z, w with
  | Float x, Float y => Float (x / y)
  | _, _ =>
      let d := re w * re w + im w * im w in
      Complex ((re z * re w + im z * im w) / d) ((im z * re w - re z * im w) / d)
  end.

(** [scipy.sqrt], which is numpy's [lib.scimath.sqrt]: the square root
    of a float that is not negative, and the imaginary number
    [sqrt(-x) j] for a negative float [x]. *)
Definition scipy_sqrt (x : R) : number :=
  if bool_decide (x < 0) then Complex 0 (sqrt (- x)) else Float (sqrt x).

(** *** Arrays

    A one-dimensional numpy array of floats is a [list R].  Indices are
    Python integers, hence [Z]: a negative index counts from the end and
    an index outside [-len, len) raises [IndexError]. *)

Definition len {A} (a : list A) : Z := Z.of_nat (length a).

Definition getitem (a : list R) (i : Z) : outcome R :=
  let j := if (i <? 0)%Z then (len a + i)%Z else i in
  if (j <? 0)%Z then Raise IndexError
  else match a !! Z.to_nat j with
       | Some x => Return x
       | None => Raise IndexError
       end.

(** A slice bound, as Python normalises it: a negative bound counts from
    the end, and the result is clamped to [0, len]. *)
Definition slice_bound (n i : Z) : nat :=
  Z.to_nat (if (i <? 0)%Z then Z.max 0 (n + i) else Z.min i n).

(** [a[lo:hi]] *)
Definition slice {A} (a : list A) (lo hi : Z) : list A :=
  let l := slice_bound (len a) lo in
  let h := slice_bound (len a) hi in
  take (h - l) (drop l a).

(** [enumerate(a)], indices from [start]. *)
Fixpoint enumerate_from {A} (start : Z) (a : list A) : list (Z * A) :=
  match a with
  | [] => []
  | x :: a' => (start, x) :: enumerate_from (start + 1) a'
  end.
Definition enumerate {A} (a : list A) : list (Z * A) := enumerate_from 0 a.

(** The loop
<<
    result = default
    for index, value in items:
        if test(value):
            result = index
            break
>>  *)
Fixpoint for_break (test : R → bool) (items : list (Z * R)) (default : Z) : Z :=
  match items with
  | [] => default
  | (index, value) :: items' =>
      if test value then index else for_break test items' default
  end.

(** Elementwise binary operation on two arrays of one length (numpy's
    arithmetic on equal shapes). *)
Definition zip_op (f : R → R → R) (a b : list R) : list R := zip_with f a b.

End Py.

Import Py.

(* ===================================================================== *)
(** ** [pygaps/calculations/bet.py] *)
(* ===================================================================== *)

Module Bet.

(** *** The isotherm object

    [area_BET] receives a [PointIsotherm].  The attributes are those
    that [Isotherm.__init__] sets ([mode_adsorbent], [mode_pressure],
    [unit_loading], [unit_pressure]), the [adsorbate] that [area_BET]
    reads, and the measured points. *)
Record PointIsotherm : Type := mkPointIsotherm {
  mode_adsorbent : string;
  mode_pressure : string;
  unit_loading : string;
  unit_pressure : string;
  adsorbate : string;
  data_loading : list R;
  data_pressure : list R
}.

(** *** What [bet.py] calls and does not define

    scipy, the adsorbate list and the accessors of [PointIsotherm] are
    not part of the embedded sources: they are the fields of this class,
    and every theorem holds for all of them. *)
Class Collaborators : Type := {
  (** [scipy.stats.linregress(x, y)]: slope, intercept, correlation
      coefficient, p-value and standard error, or an exception. *)
  linregress : list R → list R → outcome (R * R * R * R * R);
  (** scipy refuses an empty sample:
      [ValueError("Inputs must not be empty.")]. *)
  linregress_empty : ∀ y, linregress [] y = Raise ValueError;
  (** [scipy.constants.Avogadro] *)
  Avogadro : R;
  (** [Adsorbate.from_list(name).get_prop("cross_sectional_area")];
      raises when the adsorbate or the property is not in the list. *)
  cross_sectional_area : string → outcome R;
  (** [isotherm.loading(unit=u, branch=b)] *)
  isotherm_loading : PointIsotherm → string → string → list R;
  (** [isotherm.pressure(branch=b)] *)
  isotherm_pressure : PointIsotherm → string → list R;
  (** The pressures of an isotherm expressed in another pressure mode
      (the division by, or multiplication with, the saturation pressure
      of the adsorbate). *)
  pressure_in_mode : PointIsotherm → string → list R;
  (** [int(round(x, 0))], which the verbose report of [area_BET] prints.
      On a float that is NaN or infinite [int] raises [ValueError] or
      [OverflowError]; the real numbers have neither, so the conversion
      is a field of this class and nothing is assumed of it. *)
  int_round : R → outcome Z;
  (** [bet_plot] and [roq_plot] of [pygaps.graphing.calcgraph], which the
      verbose report calls, with the arguments in the order of the
      calls. *)
  bet_plot : list R → list R → Z → Z → R → R → number → number → outcome unit;
  roq_plot : list R → list R → Z → Z → number → number → outcome unit
}.

Section WithCollaborators.
Context `{Collaborators}.

(** Modelled from the spec: [PointIsotherm.convert_pressure_mode],
    which [area_BET] calls and src/ does not contain.  The spec (4.6,
    6 and 9) describes it as the collaborator's conversion of the
    sample's pressure mode, performed in place: the object's
    [mode_pressure] becomes the target mode and its pressures are the
    converted ones.  The result is the state of the same object after
    the call. *)
Definition convert_pressure_mode (isotherm : PointIsotherm) (mode : string)
  : PointIsotherm :=
  {| mode_adsorbent := mode_adsorbent isotherm;
     mode_pressure := mode;
     unit_loading := unit_loading isotherm;
     unit_pressure := unit_pressure isotherm;
     adsorbate := adsorbate isotherm;
     data_loading := data_loading isotherm;
     data_pressure := pressure_in_mode isotherm mode |}.

(** *** Transforms (lines 278-285) *)

(** [roq_transform] at two floats: [loading * (1 - pressure)]. *)
Definition roq_transform (loading pressure : R) : R :=
  loading * (1 - pressure).

(** [bet_transform] at two floats. *)
Definition bet_transform (loading pressure : R) : R :=
  pressure / roq_transform loading pressure.

(** The same two functions at arrays: numpy applies them pointwise. *)
Definition roq_transform_array (loading pressure : list R) : list R :=
  zip_op roq_transform loading pressure.
Definition bet_transform_array (loading pressure : list R) : list R :=
  zip_op bet_transform loading pressure.

(** The same two functions at a float and a pressure that may be complex,
    as the verbose report of [area_BET] calls them on the monolayer
    point. *)
Definition roq_transform_number (loading : R) (pressure : number) : number :=
  number_mul (Float loading) (number_sub (Float 1) pressure).
Definition bet_transform_number (loading : R) (pressure : number) : number :=
  number_div pressure (roq_transform_number loading pressure).

(** *** [bet_optimisation] (lines 288-292) *)
Definition bet_optimisation (pressure bet_points : list R)
  : outcome (R * R * R) :=
  match linregress pressure bet_points with
  | Return (slope, intercept, corr_coef, p, stderr) =>
      Return (slope, intercept, corr_coef)
  | Raise e => Raise e
  end.

(** *** [bet_parameters] (lines 295-302)

    Returns [(n_monolayer, p_monolayer, c_const, bet_area)].  The square
    root is [scipy.sqrt], so [p_monolayer] is a float when [c_const] is
    not negative and a complex number when it is. *)
Definition bet_parameters (slope intercept cross_section : R)
  : R * number * R * R :=
  let c_const := slope / intercept + 1 in
  let n_monolayer := 1 / (intercept * c_const) in
  let p_monolayer :=
    number_div (Float 1) (number_add (scipy_sqrt c_const) (Float 1)) in
  let bet_area := n_monolayer * cross_section * (/ 10 ^ 18) * Avogadro in
  (n_monolayer, p_monolayer, c_const, bet_area).

(** *** Region selection (lines 228-254 of [area_BET_raw]) *)

(** The first loop of the automatic mode:
<<
  for index, value in enumerate(roq_t_array):
      if value > roq_t_array[index + 1]:
          maximum = index
          break
>>
    [items] is what is left of [enumerate(roq_t_array)]; [default] is
    the value [maximum] has when the loop ends without a [break]. *)
Fixpoint scan_decrease (roq_t_array : list R) (items : list (Z * R))
    (default : Z) : outcome Z :=
  match items with
  | [] => Return default
  | (index, value) :: items' =>
      match getitem roq_t_array (index + 1) with
      | Raise e => Raise e
      | Return next =>
          if bool_decide (value > next) then Return index
          else scan_decrease roq_t_array items' default
      end
  end.

(** Returns [(minimum, maximum)]. *)
Definition select_region (roq_t_array pressure : list R)
    (limits : option (R * R)) : outcome (Z * Z) :=
  match limits with
  | None =>
      maximum ← scan_decrease roq_t_array (enumerate roq_t_array)
                  (len roq_t_array - 1);
      p_max ← getitem pressure maximum;
      let min_p := p_max / 10 in
      let minimum :=
        for_break (λ value, bool_decide (value > min_p)) (enumerate pressure) 0 in
      Return (minimum, maximum)
  | Some (low, high) =>
      let max_p := high in
      let maximum :=
        for_break (λ value, bool_decide (value < max_p))
          (reverse (enumerate pressure)) (len roq_t_array - 1) in
      let min_p := low in
      let minimum :=
        for_break (λ value, bool_decide (value > min_p)) (enumerate pressure) 0 in
      Return (minimum, maximum)
  end.

(** *** [area_BET_raw] (lines 181-275)

    Returns [(bet_area, c_const, n_monolayer, p_monolayer, slope,
    intercept, minimum, maximum, corr_coef)]. *)
Definition raw_result : Type := (R * R * R * number * R * R * Z * Z * R)%type.

Definition length_mismatch : string :=
  "The length of the pressure and loading arrays do not match".

Definition area_BET_raw (loading pressure : list R) (cross_section : R)
    (limits : option (R * R)) : W raw_result :=
  if bool_decide (length pressure ≠ length loading) then
    raise (Exception length_mismatch)
  else
    (* Generate the Roquerol array *)
    let roq_t_array := roq_transform_array loading pressure in
    (* select the maximum and minimum of the points *)
    '(minimum, maximum) ← lift (select_region roq_t_array pressure limits);
    (* calculate the BET transform, slope and intercept *)
    let bet_t_array :=
      bet_transform_array (slice loading minimum maximum)
                          (slice pressure minimum maximum) in
    '(slope, intercept, corr_coef) ←
      lift (bet_optimisation (slice pressure minimum maximum) bet_t_array);
    (* calculate the BET parameters *)
    let '(n_monolayer, p_monolayer, c_const, bet_area) :=
      bet_parameters slope intercept cross_section in
    (* Checks for consistency *)
    warn_if (bool_decide (c_const < 0)) "The C constant is negative";;
    warn_if (bool_decide (corr_coef < 0.99)) "The correlation is not linear";;
    l_min ← lift (getitem loading minimum);
    (if bool_decide (l_min > n_monolayer) then
       warn "The monolayer point is not within the BET region"
     else
       l_max ← lift (getitem loading maximum);
       warn_if (bool_decide (l_max < n_monolayer))
         "The monolayer point is not within the BET region");;
    mret (bet_area, c_const, n_monolayer, p_monolayer,
          slope, intercept, minimum, maximum, corr_coef).

(** *** [area_BET] (lines 15-178)

    The isotherm is a Python object, passed by reference: the first
    component of the result is the state of that object when the call
    returns or raises, the second is what the call did.  Of the verbose
    report (lines 152-176) the text printed is left out, and every step
    that can raise is kept, in the order of the code: the two
    [int(round(...))], the two array reads and the two plots.  ([round]
    with three digits, which the other lines print, returns a float for
    every float, and [print] itself is taken to succeed.) *)
Definition not_per_mass : string :=
  "The isotherm must be in per mass of adsorbent.First convert it using implicit functions".

Definition area_BET (isotherm : PointIsotherm) (limits : option (R * R))
    (verbose : bool) : PointIsotherm * W (gmap string number) :=
  (* Checks *)
  if bool_decide (mode_adsorbent isotherm ≠ "mass") then
    (isotherm, raise (Exception not_per_mass))
  else
    let isotherm :=
      if bool_decide (mode_pressure isotherm ≠ "relative")
      then convert_pressure_mode isotherm "relative"
      else isotherm in
    (isotherm,
     (* get adsorbate properties *)
     cross_section ← lift (cross_sectional_area (adsorbate isotherm));
     (* Read data in *)
     let loading := isotherm_loading isotherm "mol" "ads" in
     let pressure := isotherm_pressure isotherm "ads" in
     (* use the bet function: [limits] is not among its arguments *)
     '(bet_area, c_const, n_monolayer, p_monolayer, slope,
       intercept, minimum, maximum, corr_coef) ←
       area_BET_raw loading pressure cross_section None;
     let result_dict : gmap string number :=
       <["bet_area" := Float bet_area]> (
       <["c_const" := Float c_const]> (
       <["n_monolayer" := Float n_monolayer]> (
       <["p_monolayer" := p_monolayer]> (
       <["bet_slope" := Float slope]> (
       <["bet_intercept" := Float intercept]> (
       <["corr_coef" := Float corr_coef]> ∅)))))) in
     (if verbose then
        (* print("C =", int(round(c_const, 0))) *)
        _ ← lift (int_round c_const);
        (* print(... round(pressure[minimum], 3), round(pressure[maximum], 3)) *)
        _ ← lift (getitem pressure minimum);
        _ ← lift (getitem pressure maximum);
        (* print("BET surface area: a =", int(round(bet_area, 0)), ...) *)
        _ ← lift (int_round bet_area);
        (* Generate plot of the BET points chosen *)
        _ ← lift (bet_plot pressure (bet_transform_array loading pressure)
                    minimum maximum slope intercept p_monolayer
                    (bet_transform_number n_monolayer p_monolayer));
        (* Generate plot of the Roquerol points chosen *)
        lift (roq_plot pressure (roq_transform_array loading pressure)
                minimum maximum p_monolayer
                (roq_transform_number n_monolayer p_monolayer))
      else mret tt);;
     mret result_dict).

End WithCollaborators.

End Bet.


(* ===================================================================== *)
(** ** Python dictionaries with string keys and float values *)
(* ===================================================================== *)

(** [d[key]]: the value, or [KeyError]. *)
Definition getkey (d : gmap string R) (key : string) : outcome R :=
  match d !! key with
  | Some v => Return v
  | None => Raise (KeyError key)
  end.

(* ===================================================================== *)
(** ** [pygaps/calculations/models_isotherm/henry.py] *)
(* ===================================================================== *)

Module Henry.

(** An instance of the class: its [params] dictionary. *)
Record Henry : Type := mkHenry { params : gmap string R }.

(** [loading] (lines 32-46): [self.params["KH"] * pressure]. *)
Definition loading (self : Henry) (pressure : R) : outcome R :=
  KH ← getkey (params self) "KH";
  Return (KH * pressure).

(** [pressure] (lines 48-62): [loading / self.params["KH"]]. *)
Definition pressure (self : Henry) (loading : R) : outcome R :=
  KH ← getkey (params self) "KH";
  Return (loading / KH).

(** [spreading_pressure] (lines 64-78). *)
Definition spreading_pressure (self : Henry) (pressure : R) : outcome R :=
  KH ← getkey (params self) "KH";
  Return (KH * pressure).

(** [default_guess] (lines 80-96). *)
Definition default_guess (self : Henry) (saturation_loading langmuir_k : R)
  : gmap string R :=
  {[ "KH" := saturation_loading * langmuir_k ]}.

End Henry.

(* ===================================================================== *)
(** ** [pygaps/calculations/models_isotherm/virial.py] *)
(* ===================================================================== *)

Module Virial.

(** An instance of the class: its [params] dictionary.  Of the methods,
    [pressure], [spreading_pressure], [default_guess] and [fit] are
    embedded; [loading] inverts [pressure] with [scipy.optimize.minimize]
    and is left out. *)
Record Virial : Type := mkVirial { params : gmap string R }.

(** numpy's fitting routine, which [fit] calls. *)
Class Numpy : Type := {
  (** [numpy.polyfit(x, y, deg, full=True)]: of the tuple it returns, the
      coefficients (highest power first) and the array of residuals (the
      sum of squared residuals, or an empty array when the fit is
      under-determined); the rank, the singular values and the
      conditioning threshold are only printed by [fit]. *)
  polyfit : list R → list R → nat → outcome (list R * list R)
}.

(** [numpy.divide(a, b)] on one-dimensional data: pointwise on equal
    lengths, an operand of length one is broadcast, other shapes are
    refused. *)
Definition np_divide (a b : list R) : outcome (list R) :=
  if bool_decide (length a = length b) then Return (zip_with Rdiv a b)
  else match a, b with
       | _, [y] => Return ((λ x, x / y) <$> a)
       | [x], _ => Return ((λ y, x / y) <$> b)
       | _, _ => Raise ValueError
       end.

(** [pressure] (lines 68-83). *)
Definition pressure (self : Virial) (loading : R) : outcome R :=
  KH ← getkey (params self) "KH";
  A ← getkey (params self) "A";
  B ← getkey (params self) "B";
  C ← getkey (params self) "C";
  Return (loading * exp (- ln KH + A * loading + B * loading ^ 2 + C * loading ^ 3)).

(** [spreading_pressure] (lines 85-99): [raise NotImplementedError]. *)
Definition spreading_pressure (self : Virial) (pressure : R) : outcome R :=
  Raise NotImplementedError.

(** [self.params[key] = value] *)
Definition set_param (key : string) (value : R) : St Virial unit :=
  modify (λ self, {| params := <[key := value]> (params self) |}).

(** [fit] (lines 126-174).

    [fit] assigns to the model it is called on: it maps the object before
    the call to the object after it and the value returned (the array
    [rmse]), or the exception raised.  With [verbose] the function prints
    and plots, which changes neither. *)
Definition fit `{Numpy} (loading pressure : list R)
    (param_guess : gmap string R) (optimization_method : string)
    (verbose : bool) : St Virial (list R) :=
  p_over_n ← pure (np_divide pressure loading);
  let ln_p_over_n := ln <$> p_over_n in
  full_info ← pure (polyfit loading ln_p_over_n 3);
  let virial_constants := full_info.1 in
  c ← pure (getitem virial_constants 3);
  set_param "KH" (exp (- c));;
  c ← pure (getitem virial_constants 2);
  set_param "A" c;;
  c ← pure (getitem virial_constants 1);
  set_param "B" c;;
  c ← pure (getitem virial_constants 0);
  set_param "C" c;;
  let rmse := (λ r, sqrt (r / INR (length pressure))) <$> full_info.2 in
  mret rmse.

(** The base class [IsothermModel], which is not among the sources:
    [default_guess] of [Virial] calls its [default_guess] on the data and
    receives a saturation loading and a Langmuir constant, or its
    exception. *)
Class IsothermModel : Type := {
  DataFrame : Type;
  super_default_guess : DataFrame → string → string → outcome (R * R)
}.

(** [default_guess] (lines 101-124). *)
Definition default_guess `{IsothermModel} (self : Virial) (data : DataFrame)
    (loading_key pressure_key : string) : outcome (gmap string R) :=
  '(saturation_loading, langmuir_k) ←
    super_default_guess data loading_key pressure_key;
  Return (<["KH" := saturation_loading * langmuir_k]> (
          <["A" := 0]> (<["B" := 0]> (<["C" := 0]> ∅)))).

End Virial.

(* ===================================================================== *)
(** ** [adsutils/classes/isotherm.py] *)
(* ===================================================================== *)

Module Isotherm.

(** The values that the constructor is handed and stores: [None],
    strings, numbers and booleans. *)
Inductive pyvalue : Type :=
| PNone
| PStr (s : string)
| PNum (x : R)
| PBool (b : bool).

(** [v is None] *)
Definition is_none (v : pyvalue) : bool :=
  match v with PNone => true | _ => false end.

(** [v in l] for a list of strings, and [v in d] for a dictionary with
    string keys: only a string can be equal to one of them. *)
Definition in_strings (v : pyvalue) (l : list string) : bool :=
  match v with PStr s => bool_decide (s ∈ l) | _ => false end.
Definition in_keys {A} (v : pyvalue) (d : gmap string A) : bool :=
  match v with PStr s => bool_decide (is_Some (d !! s)) | _ => false end.

(** The class attributes (lines 57-61). *)
Definition _LOADING_UNITS : gmap string R :=
  <["mol" := 1]> (<["mmol" := 0.001]> (<["cm3 STP" := 4.461e-5]> ∅)).
Definition _PRESSURE_UNITS : gmap string R :=
  <["bar" := 100000]> (<["Pa" := 1]> (<["atm" := 101325]> ∅)).
Definition _MATERIAL_MODE : list string := ["mass"; "volume"].
Definition _PRESSURE_MODE : list string := ["absolute"; "relative"].

(** An instance: the attributes that [__init__] assigns, in its order. *)
Record Isotherm : Type := mkIsotherm {
  mode_adsorbent : pyvalue;
  mode_pressure : pyvalue;
  unit_loading : pyvalue;
  unit_pressure : pyvalue;
  id : pyvalue;
  sample_name : pyvalue;
  sample_batch : pyvalue;
  t_exp : pyvalue;
  gas : pyvalue;
  date : pyvalue;
  t_act : pyvalue;
  lab : pyvalue;
  comment : pyvalue;
  user : pyvalue;
  project : pyvalue;
  machine : pyvalue;
  is_real : pyvalue;
  exp_type : pyvalue;
  other_properties : gmap string pyvalue
}.

(** [d.pop(key, None)]: the value removed, or [None], and the dictionary
    without the key. *)
Definition pop (d : gmap string pyvalue) (key : string)
  : pyvalue * gmap string pyvalue :=
  (default PNone (d !! key), delete key d).

(** The messages of the exceptions, as the adjacent literals join. *)
Definition missing_information : string :=
  "Isotherm MUST have the following information in the properties dictionary:'sample_name', 'sample_batch', 't_exp', 'gas'".
Definition mode_not_specified : string :=
  "One of the modes is not specified. See viablemodes in _MATERIAL_MODE and _PRESSURE_MODE".
Definition adsorbent_mode_not_an_option : string :=
  "Mode selected for adsorbent is not an option. See viablemodes in _MATERIAL_MODE".
Definition pressure_mode_not_an_option : string :=
  "Mode selected for pressure is not an option. See viablemodes in _PRESSURE_MODE".
Definition unit_not_specified : string :=
  "One of the units is not specified. See viableunits in _LOADING_UNITS and _PRESSURE_UNITS".
Definition loading_unit_not_an_option : string :=
  "Unit selected for loading is not an option. See viableunits in _LOADING_UNITS".
Definition pressure_unit_not_an_option : string :=
  "Unit selected for pressure is not an option. See viableunits in _PRESSURE_UNITS".

(** The defaults of the four keyword parameters. *)
Definition default_mode_adsorbent : pyvalue := PStr "mass".
Definition default_mode_pressure : pyvalue := PStr "absolute".
Definition default_unit_loading : pyvalue := PStr "mmol".
Definition default_unit_pressure : pyvalue := PStr "bar".

(** [__init__] (lines 63-154).  [isotherm_parameters] is the dictionary
    of the remaining keyword arguments, which Python builds for the call:
    the pops below empty it of the named parameters and do not reach the
    caller. *)
Definition __init__ (mode_adsorbent mode_pressure unit_loading unit_pressure : pyvalue)
    (isotherm_parameters : gmap string pyvalue) : outcome Isotherm :=
  (* Checks *)
  if existsb (λ k, bool_decide (isotherm_parameters !! k = None))
       ["sample_name"; "sample_batch"; "t_exp"; "gas"] then
    Raise (Exception missing_information)
  else if is_none mode_adsorbent || is_none mode_pressure then
    Raise (Exception mode_not_specified)
  else if negb (in_strings mode_adsorbent _MATERIAL_MODE) then
    Raise (Exception adsorbent_mode_not_an_option)
  else if negb (in_strings mode_pressure _PRESSURE_MODE) then
    Raise (Exception pressure_mode_not_an_option)
  else if is_none unit_loading || is_none unit_pressure then
    Raise (Exception unit_not_specified)
  else if negb (in_keys unit_loading _LOADING_UNITS) then
    Raise (Exception loading_unit_not_an_option)
  else if negb (in_keys unit_pressure _PRESSURE_UNITS) then
    Raise (Exception pressure_unit_not_an_option)
  else
    (* Must-have properties of the isotherm *)
    let '(id, isotherm_parameters) :=
      if bool_decide (isotherm_parameters !! "id" = None)
      then (PNone, isotherm_parameters)
      else pop isotherm_parameters "id" in
    let '(sample_name, isotherm_parameters) := pop isotherm_parameters "sample_name" in
    let '(sample_batch, isotherm_parameters) := pop isotherm_parameters "sample_batch" in
    let '(t_exp, isotherm_parameters) := pop isotherm_parameters "t_exp" in
    let '(gas, isotherm_parameters) := pop isotherm_parameters "gas" in
    (* Good-to-have properties of the isotherm *)
    let '(date, isotherm_parameters) := pop isotherm_parameters "date" in
    let '(t_act, isotherm_parameters) := pop isotherm_parameters "t_act" in
    let '(lab, isotherm_parameters) := pop isotherm_parameters "lab" in
    let '(comment, isotherm_parameters) := pop isotherm_parameters "comment" in
    (* Other properties *)
    let '(user, isotherm_parameters) := pop isotherm_parameters "user" in
    let '(project, isotherm_parameters) := pop isotherm_parameters "project" in
    let '(machine, isotherm_parameters) := pop isotherm_parameters "machine" in
    let '(is_real, isotherm_parameters) := pop isotherm_parameters "is_real" in
    let '(exp_type, isotherm_parameters) := pop isotherm_parameters "exp_type" in
    (* Save the rest of the properties as an extra dict *)
    Return {|
      mode_adsorbent := mode_adsorbent;
      mode_pressure := mode_pressure;
      unit_loading := unit_loading;
      unit_pressure := unit_pressure;
      id := id;
      sample_name := sample_name;
      sample_batch := sample_batch;
      t_exp := t_exp;
      gas := gas;
      date := date;
      t_act := t_act;
      lab := lab;
      comment := comment;
      user := user;
      project := project;
      machine := machine;
      is_real := is_real;
      exp_type := exp_type;
      other_properties := isotherm_parameters
    |}.

(** [to_dict] (lines 183-218): the named properties, then
    [parameters_dict.update(self.other_properties)], whose entries win. *)
Definition to_dict (self : Isotherm) : gmap string pyvalue :=
  let parameters_dict : gmap string pyvalue :=
    <["id" := id self]> (
    <["sample_name" := sample_name self]> (
    <["sample_batch" := sample_batch self]> (
    <["t_exp" := t_exp self]> (
    <["gas" := gas self]> (
    <["date" := date self]> (
    <["t_act" := t_act self]> (
    <["lab" := lab self]> (
    <["comment" := comment self]> (
    <["user" := user self]> (
    <["project" := project self]> (
    <["machine" := machine self]> (
    <["is_real" := is_real self]> (
    <["exp_type" := exp_type self]> ∅))))))))))))) in
  other_properties self ∪ parameters_dict.

#[global] Instance Req_decision (x y : R) : Decision (x = y) := Req_dec_T x y.

(** The truth value of [if v:]. *)
Definition truthy (v : pyvalue) : bool :=
  match v with
  | PNone => false
  | PStr s => negb (bool_decide (s = ""))
  | PNum x => negb (bool_decide (x = 0))
  | PBool b => b
  end.

(** The line feed. *)
Definition nl : string := String (Ascii.ascii_of_nat 10) "".

(** [prefix + v + suffix] on strings: a [v] that is not a string makes
    [+] raise [TypeError], which is the [None] of the result. *)
Definition str_add (prefix : string) (v : pyvalue) (suffix : string)
  : option string :=
  match v with PStr s => Some (prefix +:+ s +:+ suffix) | _ => None end.

(** [__str__] (lines 159-181).  [str] is Python's conversion of a value
    to text, used for the two temperatures; [None] stands for the
    [TypeError] of a concatenation. *)
Definition __str__ (str : pyvalue → string) (self : Isotherm) : option string :=
  let string0 :=
    if truthy (is_real self) then "Experimental isotherm" +:+ nl
    else "Simulated isotherm" +:+ nl in
  l1 ← str_add "Material:" (sample_name self) nl;
  l2 ← str_add "Sample Batch:" (sample_batch self) nl;
  l3 ← str_add "Isotherm type:" (exp_type self) nl;
  l4 ← str_add "Gas used:" (gas self) nl;
  l5 ← str_add "Isotherm date:" (date self) nl;
  l6 ← str_add "Machine:" (machine self) nl;
  l7 ← str_add "User:" (user self) nl;
  let l8 := "Activation temperature:" +:+ str (t_act self) +:+ "°C" +:+ nl in
  let l9 := "Isotherm temperature:" +:+ str (t_exp self) +:+ "K" +:+ nl in
  l10 ← str_add "Isotherm comments:" (comment self) nl;
  Some (string0 +:+ l1 +:+ l2 +:+ l3 +:+ l4 +:+ l5 +:+ l6 +:+ l7 +:+ l8 +:+ l9 +:+ l10).

(** The names that [__init__] takes out of its keyword arguments and
    [to_dict] puts back. *)
Definition named_properties : list string :=
  ["id"; "sample_name"; "sample_batch"; "t_exp"; "gas"; "date"; "t_act";
   "lab"; "comment"; "user"; "project"; "machine"; "is_real"; "exp_type"].

(** The parameters of [__init__] besides [self] (lines 63-67). *)
Definition parameter_names : list string :=
  ["mode_adsorbent"; "mode_pressure"; "unit_loading"; "unit_pressure"].

(** The call of [Isotherm] on the unpacked dictionary [**kwargs].
    Python binds an entry named like a parameter of [__init__] to that
    parameter, a parameter without an entry takes its default, and the
    remaining entries are the [isotherm_parameters]; an entry named
    [self] clashes with the instance and the call raises [TypeError]. *)
Definition new (kwargs : gmap string pyvalue) : outcome Isotherm :=
  if bool_decide (is_Some (kwargs !! "self")) then Raise TypeError
  else
    __init__
      (default default_mode_adsorbent (kwargs !! "mode_adsorbent"))
      (default default_mode_pressure (kwargs !! "mode_pressure"))
      (default default_unit_loading (kwargs !! "unit_loading"))
      (default default_unit_pressure (kwargs !! "unit_pressure"))
      (delete "unit_pressure" (delete "unit_loading" (delete "mode_pressure"
        (delete "mode_adsorbent" kwargs)))).

End Isotherm.

(* ===================================================================== *)
(** ** Vocabulary of the statements *)
(* ===================================================================== *)

(** An array that never decreases from a point to its successor. *)
Definition non_decreasing (a : list R) : Prop :=
  ∀ i x y, a !! i = Some x → a !! S i = Some y → x <= y.

(** The last index of [a] whose value passes [test], if there is one. *)
Definition last_index_where (test : R → Prop) (a : list R) (i : Z) : Prop :=
  (∃ v, getitem a i = Return v ∧ test v) ∧ (0 ≤ i)%Z ∧
  ∀ j v, (i < j)%Z → getitem a j = Return v → ¬ test v.

(** The first index of [a] whose value passes [test], if there is one. *)
Definition first_index_where (test : R → Prop) (a : list R) (i : Z) : Prop :=
  (∃ v, getitem a i = Return v ∧ test v) ∧ (0 ≤ i)%Z ∧
  ∀ j v, (0 ≤ j < i)%Z → getitem a j = Return v → ¬ test v.

(* ===================================================================== *)
(** ** A laboratory for the closed examples *)
(* ===================================================================== *)

Module Example.
Import Bet.

(** Ordinary least squares, the quantities [scipy.stats.linregress]
    documents: the slope, the intercept and Pearson's correlation
    coefficient.  The p-value and the standard error, which [bet.py]
    discards, are left at [0]. *)
Definition mean (a : list R) : R := foldr Rplus 0 a / INR (length a).

Definition ols_slope (x y : list R) : R :=
  mean (zip_with (λ u v, (u - mean x) * (v - mean y)) x y)
  / mean ((λ u, (u - mean x) ^ 2) <$> x).

Definition ols_intercept (x y : list R) : R :=
  mean y - ols_slope x y * mean x.

Definition ols_corr_coef (x y : list R) : R :=
  mean (zip_with (λ u v, (u - mean x) * (v - mean y)) x y)
  / sqrt (mean ((λ u, (u - mean x) ^ 2) <$> x) * mean ((λ v, (v - mean y) ^ 2) <$> y)).

Definition least_squares (x y : list R) : outcome (R * R * R * R * R) :=
  match x with
  | [] => Raise ValueError
  | _ => Return (ols_slope x y, ols_intercept x y, ols_corr_coef x y, 0, 0)
  end.

(** Collaborators of [bet.py] for the examples: nitrogen is the one
    adsorbate of the list (cross-sectional area 0.162 nm2), an isotherm
    stores its adsorption branch in mol, the saturation pressure is one
    unit of pressure, rounding is to the nearest integer and the plots
    draw whatever they are given. *)
Definition lab : Collaborators := {|
  linregress := least_squares;
  linregress_empty := λ y, eq_refl;
  Avogadro := 6.022140857e23;
  cross_sectional_area := λ name,
    if bool_decide (name = "N2") then Return 0.162 else Raise (KeyError name);
  isotherm_loading := λ isotherm unit branch, data_loading isotherm;
  isotherm_pressure := λ isotherm branch, data_pressure isotherm;
  pressure_in_mode := λ isotherm mode, (λ p, p / 1) <$> data_pressure isotherm;
  int_round := λ x, Return (Int_part (x + / 2));
  bet_plot := λ pressure bet_points minimum maximum slope intercept p_monolayer
                bet_monolayer, Return tt;
  roq_plot := λ pressure roq_points minimum maximum p_monolayer roq_monolayer,
                Return tt
|}.

(** Four points of a nitrogen isotherm, per mass of adsorbent, in
    relative pressure: the Roquerol array [0.9; 1.6; 2.1; 0.6] rises up to
    index 2 and falls after it. *)
Definition nitrogen : PointIsotherm := {|
  mode_adsorbent := "mass";
  mode_pressure := "relative";
  unit_loading := "mol";
  unit_pressure := "bar";
  adsorbate := "N2";
  data_loading := [1; 2; 3; 1];
  data_pressure := [0.1; 0.2; 0.3; 0.4]
|}.

(** The same points recorded in absolute pressure. *)
Definition nitrogen_absolute : PointIsotherm := {|
  mode_adsorbent := "mass";
  mode_pressure := "absolute";
  unit_loading := "mol";
  unit_pressure := "bar";
  adsorbate := "N2";
  data_loading := [1; 2; 3; 1];
  data_pressure := [0.1; 0.2; 0.3; 0.4]
|}.

(** An isotherm per volume of adsorbent. *)
Definition nitrogen_per_volume : PointIsotherm := {|
  mode_adsorbent := "volume";
  mode_pressure := "relative";
  unit_loading := "mol";
  unit_pressure := "bar";
  adsorbate := "N2";
  data_loading := [1; 2; 3; 1];
  data_pressure := [0.1; 0.2; 0.3; 0.4]
|}.

(** An isotherm whose accessors give four pressures and three loadings. *)
Definition nitrogen_mismatched : PointIsotherm := {|
  mode_adsorbent := "mass";
  mode_pressure := "relative";
  unit_loading := "mol";
  unit_pressure := "bar";
  adsorbate := "N2";
  data_loading := [1; 2; 3];
  data_pressure := [0.1; 0.2; 0.3; 0.4]
|}.

(** Three points whose Roquerol array [0.9; 1.6; 2.1] never falls. *)
Definition rising_loading : list R := [1; 2; 3].
Definition rising_pressure : list R := [0.1; 0.2; 0.3].

(** A stand-in for [numpy.polyfit]: whatever the data, the cubic
    [3 x^3 + 2 x^2 + x + 0] with residual [4]. *)
Definition cubic : Virial.Numpy := {|
  Virial.polyfit := λ x y deg, Return ([3; 2; 1; 0], [4])
|}.

End Example.

(* ===================================================================== *)
(** ** Vocabulary of the statements about the isotherm class *)
(* ===================================================================== *)

(** The arguments that [Isotherm.__init__] accepts: the four required
    parameters are given, and the modes and units are strings of the
    class's lists. *)
Definition accepted
    (mode_adsorbent mode_pressure unit_loading unit_pressure : Isotherm.pyvalue)
    (isotherm_parameters : gmap string Isotherm.pyvalue) : Prop :=
  (∀ k, k ∈ ["sample_name"; "sample_batch"; "t_exp"; "gas"] →
        is_Some (isotherm_parameters !! k)) ∧
  (∃ s, mode_adsorbent = Isotherm.PStr s ∧ s ∈ ["mass"; "volume"]) ∧
  (∃ s, mode_pressure = Isotherm.PStr s ∧ s ∈ ["absolute"; "relative"]) ∧
  (∃ s, unit_loading = Isotherm.PStr s ∧ s ∈ ["mol"; "mmol"; "cm3 STP"]) ∧
  (∃ s, unit_pressure = Isotherm.PStr s ∧ s ∈ ["bar"; "Pa"; "atm"]).

(** An entry whose key is not one of the named properties. *)
Definition unnamed (kv : string * Isotherm.pyvalue) : Prop :=
  kv.1 ∉ Isotherm.named_properties.

(** The dictionary that maps every named property to [None]. *)
Definition none_for_named : gmap string Isotherm.pyvalue :=
  <["id" := Isotherm.PNone]> (
  <["sample_name" := Isotherm.PNone]> (
  <["sample_batch" := Isotherm.PNone]> (
  <["t_exp" := Isotherm.PNone]> (
  <["gas" := Isotherm.PNone]> (
  <["date" := Isotherm.PNone]> (
  <["t_act" := Isotherm.PNone]> (
  <["lab" := Isotherm.PNone]> (
  <["comment" := Isotherm.PNone]> (
  <["user" := Isotherm.PNone]> (
  <["project" := Isotherm.PNone]> (
  <["machine" := Isotherm.PNone]> (
  <["is_real" := Isotherm.PNone]> (
  <["exp_type" := Isotherm.PNone]> ∅))))))))))))).

(** An isotherm with its modes and units set to the defaults of
    [__init__], everything else kept. *)
Definition with_default_modes (self : Isotherm.Isotherm) : Isotherm.Isotherm :=
  {| Isotherm.mode_adsorbent := Isotherm.default_mode_adsorbent;
     Isotherm.mode_pressure := Isotherm.default_mode_pressure;
     Isotherm.unit_loading := Isotherm.default_unit_loading;
     Isotherm.unit_pressure := Isotherm.default_unit_pressure;
     Isotherm.id := Isotherm.id self;
     Isotherm.sample_name := Isotherm.sample_name self;
     Isotherm.sample_batch := Isotherm.sample_batch self;
     Isotherm.t_exp := Isotherm.t_exp self;
     Isotherm.gas := Isotherm.gas self;
     Isotherm.date := Isotherm.date self;
     Isotherm.t_act := Isotherm.t_act self;
     Isotherm.lab := Isotherm.lab self;
     Isotherm.comment := Isotherm.comment self;
     Isotherm.user := Isotherm.user self;
     Isotherm.project := Isotherm.project self;
     Isotherm.machine := Isotherm.machine self;
     Isotherm.is_real := Isotherm.is_real self;
     Isotherm.exp_type := Isotherm.exp_type self;
     Isotherm.other_properties := Isotherm.other_properties self |}.

(** What [__init__] stores when it is handed the modes, the units and the
    keyword arguments [p]: each named property is the entry of [p], or
    [None], and the rest of [p] is kept aside. *)
Definition stored (ma mp ul up : Isotherm.pyvalue) (p : gmap string Isotherm.pyvalue)
  : Isotherm.Isotherm :=
  {| Isotherm.mode_adsorbent := ma;
     Isotherm.mode_pressure := mp;
     Isotherm.unit_loading := ul;
     Isotherm.unit_pressure := up;
     Isotherm.id := default Isotherm.PNone (p !! "id");
     Isotherm.sample_name := default Isotherm.PNone (p !! "sample_name");
     Isotherm.sample_batch := default Isotherm.PNone (p !! "sample_batch");
     Isotherm.t_exp := default Isotherm.PNone (p !! "t_exp");
     Isotherm.gas := default Isotherm.PNone (p !! "gas");
     Isotherm.date := default Isotherm.PNone (p !! "date");
     Isotherm.t_act := default Isotherm.PNone (p !! "t_act");
     Isotherm.lab := default Isotherm.PNone (p !! "lab");
     Isotherm.comment := default Isotherm.PNone (p !! "comment");
     Isotherm.user := default Isotherm.PNone (p !! "user");
     Isotherm.project := default Isotherm.PNone (p !! "project");
     Isotherm.machine := default Isotherm.PNone (p !! "machine");
     Isotherm.is_real := default Isotherm.PNone (p !! "is_real");
     Isotherm.exp_type := default Isotherm.PNone (p !! "exp_type");
     Isotherm.other_properties := filter unnamed p |}.

(* ===================================================================== *)
(** ** More examples *)
(* ===================================================================== *)

Module Sample.

(** The keyword arguments of the docstring of [Isotherm], without its
    nested dictionary: the four required parameters and a user. *)
Definition zeolite : gmap string Isotherm.pyvalue :=
  <["sample_name" := Isotherm.PStr "Zeolite-1"]> (
  <["sample_batch" := Isotherm.PStr "1234"]> (
  <["gas" := Isotherm.PStr "N2"]> (
  <["t_exp" := Isotherm.PNum 200]> (
  <["user" := Isotherm.PStr "John Doe"]> ∅)))).

(** An isotherm with every named property but the identifier set, and a
    DOI among its other properties. *)
Definition paper : Isotherm.Isotherm :=
  {| Isotherm.mode_adsorbent := Isotherm.PStr "volume";
     Isotherm.mode_pressure := Isotherm.PStr "relative";
     Isotherm.unit_loading := Isotherm.PStr "mol";
     Isotherm.unit_pressure := Isotherm.PStr "Pa";
     Isotherm.id := Isotherm.PNone;
     Isotherm.sample_name := Isotherm.PStr "Zeolite-1";
     Isotherm.sample_batch := Isotherm.PStr "1234";
     Isotherm.t_exp := Isotherm.PNum 200;
     Isotherm.gas := Isotherm.PStr "N2";
     Isotherm.date := Isotherm.PStr "2017-11-03";
     Isotherm.t_act := Isotherm.PNum 150;
     Isotherm.lab := Isotherm.PStr "MADIREL";
     Isotherm.comment := Isotherm.PStr "none";
     Isotherm.user := Isotherm.PStr "John Doe";
     Isotherm.project := Isotherm.PStr "pyGAPS";
     Isotherm.machine := Isotherm.PStr "Triflex";
     Isotherm.is_real := Isotherm.PBool true;
     Isotherm.exp_type := Isotherm.PStr "isotherm";
     Isotherm.other_properties := {[ "doi" := Isotherm.PStr "10.0000/" ]} |}.

(** A base class whose [default_guess] reports a saturation loading of 2
    and a Langmuir constant of 3, whatever the data. *)
Definition langmuir : Virial.IsothermModel := {|
  Virial.DataFrame := list (R * R);
  Virial.super_default_guess := λ data loading_key pressure_key, Return (2, 3)
|}.

(** A Virial model with all four parameters. *)
Definition virial : Virial.Virial :=
  Virial.mkVirial (<["KH" := 6]> (<["A" := 1]> (<["B" := 0]> (<["C" := 0]> ∅)))).

End Sample.


Import Bet.

(* ===================================================================== *)
(** ** Tactics for evaluating the code at given floats *)
(* ===================================================================== *)

(** [py_step] runs the list and index computations and leaves the real
    arithmetic alone; [py_cmp] settles the next comparison of two floats. *)
Ltac py_step :=
  cbv - [IZR Rdiv Rminus Rplus Rmult Ropp Rinv Rlt Rgt sqrt exp ln
         Rlt_decision Rgt_decision bool_decide].
Ltac py_cmp :=
  first [ rewrite bool_decide_eq_true_2 by lra
        | rewrite bool_decide_eq_false_2 by lra ].
Ltac py_eval := py_step; repeat (py_cmp; py_step).

(** Decimal literals as quotients of integers, for [field]. *)
Ltac decimals := unfold Q2R; cbn [QArith_base.Qnum QArith_base.Qden].

(** Lookups of given keys in dictionaries written as a sequence of
    insertions. *)
Ltac lookup_closed :=
  repeat first [ rewrite lookup_insert_eq | rewrite lookup_insert_ne by discriminate ].


(* ===================================================================== *)
(** ** Facts about the Python fragment *)
(* ===================================================================== *)

Lemma len_nil {A} : len (@nil A) = 0%Z.
Proof. reflexivity. Qed.

Lemma len_cons {A} (x : A) (a : list A) : len (x :: a) = (len a + 1)%Z.
Proof. unfold len. cbn [length]. lia. Qed.

Lemma len_app {A} (a b : list A) : len (a ++ b) = (len a + len b)%Z.
Proof. unfold len. rewrite length_app. lia. Qed.

Lemma len_nonneg {A} (a : list A) : (0 ≤ len a)%Z.
Proof. unfold len. lia. Qed.

(** Reading an array at an index that is not negative is a list lookup. *)
Lemma getitem_lookup (a : list R) (i : Z) (x : R) :
  (0 ≤ i)%Z → a !! Z.to_nat i = Some x → getitem a i = Return x.
Proof.
  intros Hi Hx. unfold getitem.
  destruct (Z.ltb_spec i 0) as [?|_]; [lia|].
  destruct (Z.ltb_spec i 0) as [?|_]; [lia|].
  now rewrite Hx.
Qed.

Lemma getitem_nonneg (a : list R) (j : Z) (v : R) :
  (0 ≤ j)%Z → getitem a j = Return v ↔ a !! Z.to_nat j = Some v.
Proof.
  intros Hj. split; [|by apply getitem_lookup].
  unfold getitem. destruct (Z.ltb_spec j 0); [lia|]. destruct (Z.ltb_spec j 0); [lia|].
  destruct (a !! Z.to_nat j); [by intros [= ->]|done].
Qed.

Lemma getitem_in_range (a : list R) (i : Z) :
  (0 ≤ i < len a)%Z → ∃ x, getitem a i = Return x.
Proof.
  intros [Hi Hlen].
  destruct (lookup_lt_is_Some_2 a (Z.to_nat i)) as [x Hx].
  { unfold len in Hlen. lia. }
  exists x. now apply getitem_lookup.
Qed.

(** One past the last index, and beyond: [IndexError]. *)
Lemma getitem_past_end (a : list R) (i : Z) :
  (len a ≤ i)%Z → getitem a i = Raise IndexError.
Proof.
  intros Hi. pose proof (len_nonneg a). unfold getitem.
  destruct (Z.ltb_spec i 0) as [?|_]; [lia|].
  destruct (Z.ltb_spec i 0) as [?|_]; [lia|].
  destruct (a !! Z.to_nat i) eqn:E; [|done].
  apply lookup_lt_Some in E. unfold len in *. lia.
Qed.

Lemma getitem_Return_range (a : list R) (i : Z) (x : R) :
  getitem a i = Return x → (- len a ≤ i < len a)%Z.
Proof.
  unfold getitem. intros Hg.
  destruct (Z.ltb_spec i 0).
  - destruct (Z.ltb_spec (len a + i) 0); [done|]. lia.
  - destruct (Z.ltb_spec i 0); [lia|].
    destruct (a !! Z.to_nat i) eqn:E; [|done].
    apply lookup_lt_Some in E. unfold len. lia.
Qed.

Lemma slice_nil {A} (lo hi : Z) : slice (@nil A) lo hi = [].
Proof. unfold slice. by rewrite drop_nil, take_nil. Qed.

(** What a slice [a[lo:hi]] with [0 <= lo <= hi <= len a] holds: the
    entries at [lo], ..., [hi - 1], and not the one at [hi]. *)
Lemma slice_lookup {A} (a : list A) (lo hi : Z) (k : nat) :
  (0 ≤ lo ≤ hi)%Z → (hi ≤ len a)%Z →
  slice a lo hi !! k =
    if bool_decide (Z.of_nat k < hi - lo)%Z then a !! (Z.to_nat lo + k)%nat else None.
Proof.
  intros Hlo Hhi. unfold slice, slice_bound.
  destruct (Z.ltb_spec lo 0); [lia|]. destruct (Z.ltb_spec hi 0); [lia|].
  rewrite !Z.min_l by lia.
  case_bool_decide.
  - rewrite lookup_take_lt by lia. by rewrite lookup_drop.
  - rewrite lookup_take_ge by lia. done.
Qed.

Lemma slice_length {A} (a : list A) (lo hi : Z) :
  (0 ≤ lo ≤ hi)%Z → (hi ≤ len a)%Z →
  len (slice a lo hi) = (hi - lo)%Z.
Proof.
  intros Hlo Hhi. unfold slice, slice_bound, len in *.
  destruct (Z.ltb_spec lo 0); [lia|]. destruct (Z.ltb_spec hi 0); [lia|].
  rewrite !Z.min_l by lia. rewrite length_take, length_drop. lia.
Qed.

(** *** [enumerate] and the loops over it *)

Lemma elem_of_enumerate_from {A} (a : list A) (s i : Z) (x : A) :
  (i, x) ∈ enumerate_from s a →
  (s ≤ i < s + len a)%Z ∧ a !! Z.to_nat (i - s) = Some x.
Proof.
  revert s. induction a as [|y a IH]; intros s; cbn [enumerate_from].
  - intros Hin. by apply elem_of_nil in Hin.
  - rewrite len_cons. pose proof (len_nonneg a). intros [Heq|Hin]%elem_of_cons.
    + inversion Heq; subst. split; [lia|]. by rewrite Z.sub_diag.
    + apply IH in Hin as [Hr Hl]. split; [lia|].
      replace (Z.to_nat (i - s)) with (S (Z.to_nat (i - (s + 1)))) by lia.
      done.
Qed.

Lemma enumerate_from_snoc {A} (s : Z) (a : list A) (x : A) :
  enumerate_from s (a ++ [x]) = enumerate_from s a ++ [((s + len a)%Z, x)].
Proof.
  revert s. induction a as [|y a IH]; intros s; cbn [app enumerate_from].
  - by rewrite len_nil, Z.add_0_r.
  - rewrite IH. f_equal. f_equal. f_equal. f_equal. rewrite len_cons. lia.
Qed.

(** A loop with [break] ends at its default or at an entry that passes the
    test. *)
Lemma for_break_result (test : R → bool) (items : list (Z * R)) (default : Z) :
  for_break test items default = default ∨
  ∃ v, (for_break test items default, v) ∈ items ∧ test v = true.
Proof.
  induction items as [|[i v] items IH]; cbn [for_break]; [by left|].
  destruct (test v) eqn:E.
  - right. exists v. split; [apply elem_of_cons; by left|done].
  - destruct IH as [->|(w & Hin & Hw)]; [by left|].
    right. exists w. split; [|done]. apply elem_of_cons. by right.
Qed.

Lemma for_break_enumerate (test : R → bool) (a : list R) (default : Z) :
  let r := for_break test (enumerate a) default in
  r = default ∨ (0 ≤ r < len a)%Z.
Proof.
  intros r.
  destruct (for_break_result test (enumerate a) default) as [?|(v & Hin & _)];
    [by left|right].
  apply elem_of_enumerate_from in Hin as [Hr _]. subst r. lia.
Qed.

Lemma for_break_reverse_enumerate (test : R → bool) (a : list R) (default : Z) :
  let r := for_break test (reverse (enumerate a)) default in
  r = default ∨ (0 ≤ r < len a)%Z.
Proof.
  intros r.
  destruct (for_break_result test (reverse (enumerate a)) default)
    as [?|(v & Hin & _)]; [by left|right].
  apply elem_of_reverse, elem_of_enumerate_from in Hin as [Hr _]. subst r. lia.
Qed.

(** Scanning forward, the loop stops at the first entry that passes. *)
Lemma for_break_first (test : R → bool) (a : list R) (s default : Z) :
  (for_break test (enumerate_from s a) default = default ∧
   Forall (λ v, test v = false) a) ∨
  ∃ (k : nat) (v : R),
    for_break test (enumerate_from s a) default = (s + Z.of_nat k)%Z ∧
    a !! k = Some v ∧ test v = true ∧
    ∀ j w, (j < k)%nat → a !! j = Some w → test w = false.
Proof.
  revert s. induction a as [|x a IH]; intros s; cbn [enumerate_from for_break].
  - left. by split.
  - destruct (test x) eqn:Hx.
    + right. exists 0%nat, x. split; [lia|]. split; [done|]. split; [done|]. lia.
    + destruct (IH (s + 1)%Z) as [[Hd Hall]|(k & v & Hr & Hk & Hv & Hbefore)].
      * left. split; [done|]. by constructor.
      * right. exists (S k), v. split; [lia|]. split; [done|]. split; [done|].
        intros [|j] w Hj; cbn; [by intros [= <-]|]. apply Hbefore. lia.
Qed.

(** Scanning from the end, it stops at the last one. *)
Lemma for_break_last (test : R → bool) (a : list R) (s default : Z) :
  (for_break test (reverse (enumerate_from s a)) default = default ∧
   Forall (λ v, test v = false) a) ∨
  ∃ (k : nat) (v : R),
    for_break test (reverse (enumerate_from s a)) default = (s + Z.of_nat k)%Z ∧
    a !! k = Some v ∧ test v = true ∧
    ∀ j w, (k < j)%nat → a !! j = Some w → test w = false.
Proof.
  induction a as [|x a IH] using rev_ind.
  - left. by split.
  - rewrite enumerate_from_snoc, reverse_snoc. cbn [for_break].
    destruct (test x) eqn:Hx.
    + right. exists (length a), x. split; [done|].
      split; [by apply list_lookup_middle|]. split; [done|].
      intros j w Hj Hw. apply lookup_lt_Some in Hw.
      rewrite length_app in Hw. cbn in Hw. lia.
    + destruct IH as [[Hd Hall]|(k & v & Hr & Hk & Hv & Hafter)].
      * left. split; [done|]. apply Forall_app. split; [done|]. by constructor.
      * right. exists k, v. split; [done|].
        split; [by apply lookup_app_l_Some|]. split; [done|].
        intros j w Hj Hw.
        apply lookup_app_Some in Hw as [Hw|[_ Hw]]; [by eapply Hafter|].
        apply list_lookup_singleton_Some in Hw as [_ <-]. done.
Qed.

Lemma first_index_where_intro (test : R → Prop) (a : list R) (k : nat) (v : R) :
  a !! k = Some v → test v →
  (∀ j w, (j < k)%nat → a !! j = Some w → ¬ test w) →
  first_index_where test a (Z.of_nat k).
Proof.
  intros Hk Hv Hbefore. split; [|split; [lia|]].
  - exists v. split; [|done]. apply getitem_lookup; [lia|]. by rewrite Nat2Z.id.
  - intros j w Hj Hw. apply getitem_nonneg in Hw; [|lia].
    apply (Hbefore (Z.to_nat j)); [lia|done].
Qed.

Lemma last_index_where_intro (test : R → Prop) (a : list R) (k : nat) (v : R) :
  a !! k = Some v → test v →
  (∀ j w, (k < j)%nat → a !! j = Some w → ¬ test w) →
  last_index_where test a (Z.of_nat k).
Proof.
  intros Hk Hv Hafter. split; [|split; [lia|]].
  - exists v. split; [|done]. apply getitem_lookup; [lia|]. by rewrite Nat2Z.id.
  - intros j w Hj Hw. apply getitem_nonneg in Hw; [|lia].
    apply (Hafter (Z.to_nat j)); [lia|done].
Qed.

(** *** Sequencing in [W] *)

Lemma W_bind_lift_Return {A B} (a : A) (k : A → W B) :
  (lift (Return a) ≫= k) = k a.
Proof. unfold mbind, W_bind, bind, lift. by destruct (k a). Qed.

Lemma W_bind_warn_if {B} (cond : bool) (msg : string) (k : unit → W B) :
  (warn_if cond msg ≫= k) = ((if cond then [msg] else []) ++ (k tt).1, (k tt).2).
Proof.
  unfold mbind, W_bind, bind, warn_if, warn, ret. by destruct cond, (k tt).
Qed.

Lemma W_bind_warn {B} (msg : string) (k : unit → W B) :
  (warn msg ≫= k) = (msg :: (k tt).1, (k tt).2).
Proof. unfold mbind, W_bind, bind, warn. by destruct (k tt). Qed.

(** *** Comparisons *)

Lemma bool_decide_Rgt_false (x y : R) : x <= y → bool_decide (x > y) = false.
Proof. intros. apply bool_decide_eq_false_2. lra. Qed.


(* ===================================================================== *)
(** ** Region selection *)
(* ===================================================================== *)

(** The forward scan over a tail that never decreases reaches the last
    entry, reads one past the end of the array and raises. *)
Lemma scan_decrease_no_decrease (pre a : list R) (d : Z) :
  a ≠ [] → non_decreasing a →
  scan_decrease (pre ++ a) (enumerate_from (len pre) a) d = Raise IndexError.
Proof.
  revert pre. induction a as [|x a IH]; intros pre Hne Hnd; [done|].
  cbn [enumerate_from scan_decrease].
  destruct a as [|y a].
  - rewrite getitem_past_end; [done|]. rewrite len_app, len_cons, len_nil. lia.
  - rewrite (getitem_lookup _ _ y).
    + rewrite bool_decide_Rgt_false by (apply (Hnd 0%nat); done).
      replace (pre ++ x :: y :: a) with ((pre ++ [x]) ++ y :: a)
        by (by rewrite <- app_assoc).
      replace (len pre + 1)%Z with (len (pre ++ [x]))
        by (rewrite len_app, len_cons, len_nil; lia).
      apply IH; [done|]. intros i u v Hu Hv. by apply (Hnd (S i)).
    + pose proof (len_nonneg pre). lia.
    + replace (Z.to_nat (len pre + 1)) with (length pre + 1)%nat
        by (unfold len; lia).
      rewrite lookup_app_r by lia.
      by replace (length pre + 1 - length pre)%nat with 1%nat by lia.
Qed.

(** The forward scan stops at the first entry larger than its successor. *)
Lemma scan_decrease_first (pre suf : list R) (k : nat) (x y : R) (default : Z) :
  suf !! k = Some x → suf !! S k = Some y → x > y →
  (∀ j u w, (j < k)%nat → suf !! j = Some u → suf !! S j = Some w → u <= w) →
  scan_decrease (pre ++ suf) (enumerate_from (len pre) suf) default
    = Return (len pre + Z.of_nat k)%Z.
Proof.
  revert pre k. induction suf as [|x0 suf IH]; intros pre k Hx Hy Hgt Hbefore; [done|].
  cbn [enumerate_from scan_decrease].
  assert (∃ next, suf !! 0%nat = Some next) as [next Hnext].
  { destruct suf; [by destruct k|by eexists]. }
  rewrite (getitem_lookup _ _ next).
  - destruct k as [|k].
    + injection Hx as ->. change (suf !! 0%nat = Some y) in Hy.
      rewrite Hnext in Hy. injection Hy as ->.
      rewrite bool_decide_eq_true_2 by done. f_equal. lia.
    + rewrite bool_decide_Rgt_false by (by apply (Hbefore 0%nat); [lia|..]).
      replace (pre ++ x0 :: suf) with ((pre ++ [x0]) ++ suf)
        by (by rewrite <- app_assoc).
      replace (len pre + 1)%Z with (len (pre ++ [x0]))
        by (rewrite len_app, len_cons, len_nil; lia).
      rewrite (IH (pre ++ [x0]) k); [|done..|].
      * f_equal. rewrite len_app, len_cons, len_nil. lia.
      * intros j u w Hj. apply (Hbefore (S j)). lia.
  - pose proof (len_nonneg pre). lia.
  - replace (Z.to_nat (len pre + 1)) with (length pre + 1)%nat by (unfold len; lia).
    rewrite lookup_app_r by lia.
    by replace (length pre + 1 - length pre)%nat with 1%nat by lia.
Qed.

(** When the forward scan returns, it returns its default or an index
    whose successor is in the array. *)
Lemma scan_decrease_Return (roq a : list R) (s d m : Z) :
  scan_decrease roq (enumerate_from s a) d = Return m →
  m = d ∨ ((s ≤ m < s + len a)%Z ∧ ∃ next, getitem roq (m + 1) = Return next).
Proof.
  revert s. induction a as [|x a IH]; intros s; cbn [enumerate_from scan_decrease].
  - intros [= <-]. by left.
  - rewrite len_cons. pose proof (len_nonneg a).
    destruct (getitem roq (s + 1)) as [next|e] eqn:Hnext; [|done].
    case_bool_decide.
    + intros [= <-]. right. split; [lia|]. by exists next.
    + intros [->|[Hr Hn]]%IH; [by left|]. right. split; [lia|done].
Qed.

Lemma len_roq_transform_array (loading pressure : list R) :
  length pressure = length loading →
  len (roq_transform_array loading pressure) = len pressure.
Proof.
  intros Hlen. unfold len, roq_transform_array, zip_op.
  rewrite length_zip_with. lia.
Qed.

(** A selected region of non-empty arrays consists of two indices of the
    arrays. *)
Lemma select_region_in_range (loading pressure : list R) (limits : option (R * R))
    (minimum maximum : Z) :
  length pressure = length loading →
  pressure ≠ [] →
  select_region (roq_transform_array loading pressure) pressure limits
    = Return (minimum, maximum) →
  (0 ≤ minimum < len pressure)%Z ∧ (0 ≤ maximum < len pressure)%Z.
Proof.
  intros Hlen Hne.
  assert (0 < len pressure)%Z as Hpos.
  { destruct pressure; [done|]. rewrite len_cons. pose proof (len_nonneg pressure). lia. }
  pose proof (len_roq_transform_array _ _ Hlen) as Hroq.
  unfold select_region. destruct limits as [[low high]|].
  - intros [= <- <-]. rewrite Hroq. split.
    + destruct (for_break_enumerate (λ value, bool_decide (value > low)) pressure 0); lia.
    + destruct (for_break_reverse_enumerate
                  (λ value, bool_decide (value < high)) pressure (len pressure - 1)); lia.
  - destruct (scan_decrease _ _ _) as [mx|e] eqn:Hscan; [|done].
    cbn. destruct (getitem pressure mx) as [p_max|e] eqn:Hp; [|done].
    cbn. intros [= <- <-]. split.
    + destruct (for_break_enumerate
                  (λ value, bool_decide (value > p_max / 10)) pressure 0); lia.
    + apply scan_decrease_Return in Hscan as [->|[Hr _]]; rewrite Hroq in *; lia.
Qed.

(** *** The four nitrogen points *)

Lemma nitrogen_automatic_region :
  select_region (roq_transform_array [1; 2; 3; 1] [0.1; 0.2; 0.3; 0.4])
    [0.1; 0.2; 0.3; 0.4] None = Return (0%Z, 2%Z).
Proof. py_eval. reflexivity. Qed.

Lemma nitrogen_manual_region :
  select_region (roq_transform_array [1; 2; 3; 1] [0.1; 0.2; 0.3; 0.4])
    [0.1; 0.2; 0.3; 0.4] (Some (0.15, 0.35)) = Return (1%Z, 2%Z).
Proof. py_eval. reflexivity. Qed.

(** The least-squares line through the two BET points of the slice
    [0:2]: slope 5/36, intercept 7/72, correlation 1. *)
Lemma nitrogen_slope :
  Example.ols_slope [0.1; 0.2] (bet_transform_array [1; 2] [0.1; 0.2]) = 5 / 36.
Proof.
  cbv [Example.ols_slope Example.mean bet_transform_array zip_op zip_with fmap
       list_fmap foldr length bet_transform roq_transform INR].
  decimals. field.
Qed.

Lemma nitrogen_intercept :
  Example.ols_intercept [0.1; 0.2] (bet_transform_array [1; 2] [0.1; 0.2]) = 7 / 72.
Proof.
  unfold Example.ols_intercept. rewrite nitrogen_slope.
  cbv [Example.mean bet_transform_array zip_op zip_with fmap list_fmap foldr
       length bet_transform roq_transform INR].
  decimals. field.
Qed.

Lemma nitrogen_corr_coef :
  Example.ols_corr_coef [0.1; 0.2] (bet_transform_array [1; 2] [0.1; 0.2]) = 1.
Proof.
  cbv [Example.ols_corr_coef Example.mean bet_transform_array zip_op zip_with
       fmap list_fmap foldr length bet_transform roq_transform INR].
  decimals.
  match goal with |- _ / sqrt ?v = _ =>
    replace v with ((1 / 2880) * (1 / 2880)) by field end.
  rewrite sqrt_square by lra. field.
Qed.

Lemma nitrogen_regression :
  bet_optimisation (H := Example.lab) [0.1; 0.2] (bet_transform_array [1; 2] [0.1; 0.2])
  = Return (5 / 36, 7 / 72, 1).
Proof.
  unfold bet_optimisation. cbn [linregress Example.lab Example.least_squares].
  by rewrite nitrogen_slope, nitrogen_intercept, nitrogen_corr_coef.
Qed.

Lemma rising_non_decreasing :
  non_decreasing (roq_transform_array Example.rising_loading Example.rising_pressure).
Proof.
  intros i x y Hx Hy.
  destruct i as [|[|[|i]]];
    cbv [Example.rising_loading Example.rising_pressure
         roq_transform_array zip_op zip_with lookup list_lookup] in Hx, Hy;
    try discriminate; injection Hx as <-; injection Hy as <-;
    unfold roq_transform; lra.
Qed.


(* ===================================================================== *)
(** ** [area_BET] and [area_BET_raw] *)
(* ===================================================================== *)

Section AreaBET.
Context `{Collaborators}.

(** C1, as the code has it.  The isotherm object after a call of
    [area_BET]: when the isotherm is per mass of adsorbent and its
    pressure mode is not "relative", it is the caller's object converted
    in place by [convert_pressure_mode], otherwise it is the object as it
    was.  So after a call that passed the mass check the caller's isotherm
    is in relative pressure mode, whatever mode it was handed over in. *)
Theorem area_BET_isotherm_after_call
    (isotherm : PointIsotherm) (limits : option (R * R)) (verbose : bool) :
  (area_BET isotherm limits verbose).1 =
    (if bool_decide (mode_adsorbent isotherm = "mass" ∧
                     mode_pressure isotherm ≠ "relative")
     then convert_pressure_mode isotherm "relative" else isotherm) ∧
  mode_pressure (area_BET isotherm limits verbose).1 =
    (if bool_decide (mode_adsorbent isotherm = "mass")
     then "relative" else mode_pressure isotherm).
Proof.
  unfold area_BET.
  destruct (decide (mode_adsorbent isotherm = "mass")) as [Hmass|Hmass].
  - rewrite (bool_decide_eq_false_2 (_ ≠ "mass")) by tauto.
    rewrite (bool_decide_eq_true_2 (_ = "mass")) by done. cbn [fst].
    destruct (decide (mode_pressure isotherm = "relative")) as [Hrel|Hrel].
    + rewrite (bool_decide_eq_false_2 (_ ≠ "relative")) by tauto.
      rewrite (bool_decide_eq_false_2 (_ ∧ _)) by tauto. done.
    + rewrite (bool_decide_eq_true_2 (_ ≠ "relative")) by done.
      rewrite (bool_decide_eq_true_2 (_ ∧ _)) by done. done.
  - rewrite (bool_decide_eq_true_2 (_ ≠ "mass")) by done.
    rewrite (bool_decide_eq_false_2 (_ = "mass")) by done.
    rewrite (bool_decide_eq_false_2 (_ ∧ _)) by tauto. done.
Qed.

(** [area_BET] never looks at its [limits]. *)
Lemma area_BET_limits_unused
    (isotherm : PointIsotherm) (limits limits' : option (R * R)) (verbose : bool) :
  area_BET isotherm limits verbose = area_BET isotherm limits' verbose.
Proof. reflexivity. Qed.

Lemma bet_optimisation_empty (bet_points : list R) :
  bet_optimisation [] bet_points = Raise ValueError.
Proof. unfold bet_optimisation. by rewrite linregress_empty. Qed.

Lemma area_BET_raw_length_mismatch
    (loading pressure : list R) (cross_section : R) (limits : option (R * R)) :
  length pressure ≠ length loading →
  area_BET_raw loading pressure cross_section limits
    = ([], Raise (Exception length_mismatch)).
Proof.
  intros Hlen. unfold area_BET_raw. by rewrite bool_decide_eq_true_2.
Qed.

(** C3, on the code.  In automatic mode, on arrays of one length that are
    not empty and whose Roquerol array never decreases from a point to its
    successor, the forward scan compares the last point with the entry
    one past the end of the array: region selection, and with it
    [area_BET_raw], raises [IndexError] instead of selecting the last
    index. *)
Theorem automatic_region_raises_when_nothing_decreases
    (loading pressure : list R) (cross_section : R) :
  length pressure = length loading →
  loading ≠ [] →
  non_decreasing (roq_transform_array loading pressure) →
  select_region (roq_transform_array loading pressure) pressure None
    = Raise IndexError ∧
  area_BET_raw loading pressure cross_section None = ([], Raise IndexError).
Proof.
  intros Hlen Hne Hnd.
  assert (select_region (roq_transform_array loading pressure) pressure None
          = Raise IndexError) as Hsel.
  { unfold select_region, enumerate.
    rewrite (scan_decrease_no_decrease [] (roq_transform_array loading pressure));
      [done| |done].
    destruct loading, pressure; done. }
  split; [done|]. unfold area_BET_raw.
  rewrite bool_decide_eq_false_2 by (intros ?; done).
  by rewrite Hsel.
Qed.

(** What [area_BET_raw] does once the lengths agree, a region has been
    selected and the regression has returned. *)
Lemma area_BET_raw_checks
    (loading pressure : list R) (cross_section : R) (limits : option (R * R))
    (minimum maximum : Z) (slope intercept corr_coef : R) :
  length pressure = length loading →
  select_region (roq_transform_array loading pressure) pressure limits
    = Return (minimum, maximum) →
  bet_optimisation (slice pressure minimum maximum)
    (bet_transform_array (slice loading minimum maximum)
                         (slice pressure minimum maximum))
    = Return (slope, intercept, corr_coef) →
  let '(n_monolayer, p_monolayer, c_const, bet_area) :=
    bet_parameters slope intercept cross_section in
  ∃ l_min l_max,
    getitem loading minimum = Return l_min ∧
    getitem loading maximum = Return l_max ∧
    area_BET_raw loading pressure cross_section limits =
      ((if bool_decide (c_const < 0)
        then ["The C constant is negative"] else []) ++
       (if bool_decide (corr_coef < 0.99)
        then ["The correlation is not linear"] else []) ++
       (if bool_decide (l_min > n_monolayer ∨ l_max < n_monolayer)
        then ["The monolayer point is not within the BET region"] else []),
       Return (bet_area, c_const, n_monolayer, p_monolayer,
               slope, intercept, minimum, maximum, corr_coef)).
Proof.
  intros Hlen Hsel Hfit.
  assert (pressure ≠ []) as Hne.
  { intros ->. by rewrite slice_nil, bet_optimisation_empty in Hfit. }
  destruct (select_region_in_range _ _ _ _ _ Hlen Hne Hsel) as [Hmin Hmax].
  assert (len loading = len pressure) as Hlen' by (unfold len; lia).
  destruct (getitem_in_range loading minimum) as [l_min Hl_min]; [lia|].
  destruct (getitem_in_range loading maximum) as [l_max Hl_max]; [lia|].
  unfold area_BET_raw.
  rewrite bool_decide_eq_false_2 by (intros ?; done).
  rewrite Hsel, W_bind_lift_Return. cbn beta iota zeta.
  rewrite Hfit, W_bind_lift_Return.
  destruct (bet_parameters slope intercept cross_section)
    as [[[n_monolayer p_monolayer] c_const] bet_area].
  exists l_min, l_max. split; [done|]. split; [done|].
  rewrite !W_bind_warn_if, Hl_min, W_bind_lift_Return.
  destruct (decide (l_min > n_monolayer)) as [Hgt|Hgt].
  - rewrite (bool_decide_eq_true_2 (l_min > _)) by done.
    rewrite (bool_decide_eq_true_2 (_ ∨ _)) by (by left).
    by rewrite W_bind_warn.
  - rewrite (bool_decide_eq_false_2 (l_min > _)) by done.
    rewrite Hl_max, W_bind_lift_Return, W_bind_warn_if.
    destruct (decide (l_max < n_monolayer)) as [Hlt|Hlt].
    + rewrite (bool_decide_eq_true_2 (l_max < _)) by done.
      by rewrite (bool_decide_eq_true_2 (_ ∨ _)) by (by right).
    + rewrite (bool_decide_eq_false_2 (l_max < _)) by done.
      by rewrite (bool_decide_eq_false_2 (_ ∨ _)) by tauto.
Qed.

(** C5, as the code has it.  Once the lengths agree, a region
    [(minimum, maximum)] has been selected and the regression over the
    slice has returned, the three consistency checks cannot make
    [area_BET_raw] fail: what the caller receives is the complete tuple
    of results and nothing is raised.  A violated check hands its
    message to [warnings.warn]: in this order, "The C constant is
    negative" when [c_const < 0], "The correlation is not linear" when
    [corr_coef < 0.99], and "The monolayer point is not within the BET
    region" when [loading[minimum] > n_monolayer] or [loading[maximum] <
    n_monolayer].  The messages are no part of the tuple returned. *)
Theorem consistency_checks_are_warnings
    (loading pressure : list R) (cross_section : R) (limits : option (R * R))
    (minimum maximum : Z) (slope intercept corr_coef : R) :
  length pressure = length loading →
  select_region (roq_transform_array loading pressure) pressure limits
    = Return (minimum, maximum) →
  bet_optimisation (slice pressure minimum maximum)
    (bet_transform_array (slice loading minimum maximum)
                         (slice pressure minimum maximum))
    = Return (slope, intercept, corr_coef) →
  let '(n_monolayer, p_monolayer, c_const, bet_area) :=
    bet_parameters slope intercept cross_section in
  ∃ l_min l_max,
    getitem loading minimum = Return l_min ∧
    getitem loading maximum = Return l_max ∧
    result (area_BET_raw loading pressure cross_section limits) =
      Return (bet_area, c_const, n_monolayer, p_monolayer,
              slope, intercept, minimum, maximum, corr_coef) ∧
    warned (area_BET_raw loading pressure cross_section limits) =
      (if bool_decide (c_const < 0)
       then ["The C constant is negative"] else []) ++
      (if bool_decide (corr_coef < 0.99)
       then ["The correlation is not linear"] else []) ++
      (if bool_decide (l_min > n_monolayer ∨ l_max < n_monolayer)
       then ["The monolayer point is not within the BET region"] else []).
Proof.
  intros Hlen Hsel Hfit.
  pose proof (area_BET_raw_checks loading pressure cross_section limits
                minimum maximum slope intercept corr_coef Hlen Hsel Hfit) as Hraw.
  destruct (bet_parameters slope intercept cross_section)
    as [[[n_monolayer p_monolayer] c_const] bet_area].
  destruct Hraw as (l_min & l_max & Hmin & Hmax & ->).
  by exists l_min, l_max.
Qed.

(** C6.  When the isotherm is not per mass of adsorbent, or the pressures
    and the loadings read from it differ in length, [area_BET] raises and
    has emitted no warning.  In the first case the exception is
    [Exception] with the message [not_per_mass], raised by the first
    statement.  In the second it is [Exception] with the message
    [length_mismatch], raised by the first statement of [area_BET_raw],
    before the Roquerol array, the region and the regression (unless the
    adsorbate lookup, which comes before, has raised already).  This holds
    whatever the arrays hold, also where region selection would raise. *)
Theorem area_BET_fails_fast
    (isotherm : PointIsotherm) (limits : option (R * R)) (verbose : bool) :
  let after := (area_BET isotherm limits verbose).1 in
  mode_adsorbent isotherm ≠ "mass" ∨
  length (isotherm_pressure after "ads") ≠ length (isotherm_loading after "mol" "ads") →
  (area_BET isotherm limits verbose).2 =
    ([], Raise
           (if bool_decide (mode_adsorbent isotherm ≠ "mass")
            then Exception not_per_mass
            else match cross_sectional_area (adsorbate isotherm) with
                 | Return _ => Exception length_mismatch
                 | Raise e => e
                 end)).
Proof.
  unfold area_BET.
  destruct (decide (mode_adsorbent isotherm ≠ "mass")) as [Hmode|Hmode].
  - rewrite !(bool_decide_eq_true_2 (_ ≠ "mass")) by done. done.
  - rewrite !(bool_decide_eq_false_2 (_ ≠ "mass")) by done. cbn [fst snd].
    intros [?|Hlen]; [done|].
    set (after := if bool_decide (mode_pressure isotherm ≠ "relative")
                  then convert_pressure_mode isotherm "relative" else isotherm) in *.
    assert (adsorbate after = adsorbate isotherm) as ->.
    { subst after. by case_bool_decide. }
    destruct (cross_sectional_area (adsorbate isotherm)) as [cross_section|e]; [|done].
    rewrite W_bind_lift_Return.
    by rewrite area_BET_raw_length_mismatch.
Qed.

End AreaBET.

(** C1, refuted as stated: an isotherm handed over in absolute pressure
    mode is in relative pressure mode when [area_BET] returns. *)
Lemma area_BET_converts_the_caller_isotherm :
  mode_pressure Example.nitrogen_absolute = "absolute" ∧
  mode_pressure
    (area_BET (H := Example.lab) Example.nitrogen_absolute None false).1
    = "relative".
Proof. split; reflexivity. Qed.

(** C2, on the code.  [area_BET] calls [area_BET_raw] without its
    [limits]: for every isotherm the call with limits is the call without
    them.  On the four nitrogen points the limits (0.15, 0.35) select the
    region (1, 2) in [area_BET_raw], while the automatic heuristic, which
    is what [area_BET] runs, selects (0, 2). *)
Theorem area_BET_drops_the_limits :
  (∀ (C : Collaborators) isotherm limits verbose,
     area_BET isotherm limits verbose = area_BET isotherm None verbose) ∧
  isotherm_loading (Collaborators := Example.lab) Example.nitrogen "mol" "ads"
    = [1; 2; 3; 1] ∧
  isotherm_pressure (Collaborators := Example.lab) Example.nitrogen "ads"
    = [0.1; 0.2; 0.3; 0.4] ∧
  select_region (roq_transform_array [1; 2; 3; 1] [0.1; 0.2; 0.3; 0.4])
    [0.1; 0.2; 0.3; 0.4] (Some (0.15, 0.35)) = Return (1%Z, 2%Z) ∧
  select_region (roq_transform_array [1; 2; 3; 1] [0.1; 0.2; 0.3; 0.4])
    [0.1; 0.2; 0.3; 0.4] None = Return (0%Z, 2%Z).
Proof.
  split; [intros; apply area_BET_limits_unused|].
  split; [reflexivity|]. split; [reflexivity|].
  split; [apply nitrogen_manual_region|apply nitrogen_automatic_region].
Qed.

(** C3 at three rising points: [IndexError]. *)
Lemma automatic_region_raises_on_rising_points :
  select_region
    (roq_transform_array Example.rising_loading Example.rising_pressure)
    Example.rising_pressure None = Raise IndexError ∧
  area_BET_raw (H := Example.lab) Example.rising_loading Example.rising_pressure
    0.162 None = ([], Raise IndexError).
Proof.
  apply (automatic_region_raises_when_nothing_decreases (H := Example.lab)).
  - reflexivity.
  - discriminate.
  - apply rising_non_decreasing.
Defined.

(** The outcome of [area_BET_raw] depends on the regression only through
    what it returns on the slices [minimum:maximum] of the selected
    region. *)
Lemma area_BET_raw_regression (C C' : Collaborators)
    (loading pressure : list R) (cross_section : R) (limits : option (R * R))
    (minimum maximum : Z) :
  length pressure = length loading →
  select_region (roq_transform_array loading pressure) pressure limits
    = Return (minimum, maximum) →
  linregress (Collaborators := C) (slice pressure minimum maximum)
    (bet_transform_array (slice loading minimum maximum)
                         (slice pressure minimum maximum))
  = linregress (Collaborators := C') (slice pressure minimum maximum)
    (bet_transform_array (slice loading minimum maximum)
                         (slice pressure minimum maximum)) →
  Avogadro (Collaborators := C) = Avogadro (Collaborators := C') →
  area_BET_raw (H := C) loading pressure cross_section limits
  = area_BET_raw (H := C') loading pressure cross_section limits.
Proof.
  intros Hlen Hsel Hreg Havo. unfold area_BET_raw.
  rewrite bool_decide_eq_false_2 by (intros ?; done).
  rewrite Hsel, !W_bind_lift_Return. cbn beta iota zeta.
  unfold bet_optimisation, bet_parameters. by rewrite Hreg, Havo.
Qed.

(** C4, on the code.  On the four nitrogen points the selected region is
    (0, 2) and the pressure at index 2 is 0.3, but the slices [0:2] that
    are transformed and fitted hold the points at indices 0 and 1 only:
    whatever the regression routine, the outcome of [area_BET_raw] is
    fixed by what the routine returns on those two points. *)
Theorem regression_leaves_out_the_maximum :
  let loading := [1; 2; 3; 1] in
  let pressure := [0.1; 0.2; 0.3; 0.4] in
  select_region (roq_transform_array loading pressure) pressure None
    = Return (0%Z, 2%Z) ∧
  getitem pressure 2 = Return 0.3 ∧
  slice pressure 0 2 = [0.1; 0.2] ∧
  slice loading 0 2 = [1; 2] ∧
  ∀ (C C' : Collaborators) (cross_section : R),
    linregress (Collaborators := C) [0.1; 0.2]
      (bet_transform_array [1; 2] [0.1; 0.2])
    = linregress (Collaborators := C') [0.1; 0.2]
      (bet_transform_array [1; 2] [0.1; 0.2]) →
    Avogadro (Collaborators := C) = Avogadro (Collaborators := C') →
    area_BET_raw (H := C) loading pressure cross_section None
    = area_BET_raw (H := C') loading pressure cross_section None.
Proof.
  intros loading pressure.
  split; [apply nitrogen_automatic_region|].
  split; [reflexivity|]. split; [reflexivity|]. split; [reflexivity|].
  intros C C' cross_section Hreg Havo.
  apply (area_BET_raw_regression C C' loading pressure cross_section None 0 2);
    [reflexivity|apply nitrogen_automatic_region|exact Hreg|exact Havo].
Qed.

(** The Roquerol array of the loadings [1; 2; 5; 1] at the nitrogen
    pressures, [0.9; 1.6; 3.5; 0.6], falls after index 2 as well. *)
Lemma nitrogen_automatic_region_5 :
  select_region (roq_transform_array [1; 2; 5; 1] [0.1; 0.2; 0.3; 0.4])
    [0.1; 0.2; 0.3; 0.4] None = Return (0%Z, 2%Z).
Proof. py_eval. reflexivity. Qed.

(** [area_BET_raw] at four points whose first two are those of the
    nitrogen isotherm and whose region is (0, 2), with least squares for
    the regression: the line has slope 5/36, intercept 7/72 and
    correlation 1, so [c_const] is 17/7 and [n_monolayer] is 72/17; only
    the third check can warn, and it looks at the third loading. *)
Lemma area_BET_raw_on_four_points (l : R) :
  select_region (roq_transform_array [1; 2; l; 1] [0.1; 0.2; 0.3; 0.4])
    [0.1; 0.2; 0.3; 0.4] None = Return (0%Z, 2%Z) →
  area_BET_raw (H := Example.lab) [1; 2; l; 1] [0.1; 0.2; 0.3; 0.4] 0.162 None
  = ((if bool_decide (l < 72 / 17)
      then ["The monolayer point is not within the BET region"] else []),
     Return (72 / 17 * 0.162 * / 10 ^ 18 * Avogadro (Collaborators := Example.lab),
             17 / 7, 72 / 17,
             number_div (Float 1) (number_add (scipy_sqrt (17 / 7)) (Float 1)),
             5 / 36, 7 / 72, 0%Z, 2%Z, 1)).
Proof.
  intros Hsel.
  pose proof (area_BET_raw_checks (H := Example.lab)
    [1; 2; l; 1] [0.1; 0.2; 0.3; 0.4] 0.162 None 0 2 (5 / 36) (7 / 72) 1
    eq_refl Hsel nitrogen_regression) as Hraw.
  unfold bet_parameters in Hraw.
  destruct Hraw as (l_min & l_max & Hmin & Hmax & Hraw).
  injection Hmin as <-. injection Hmax as <-.
  rewrite Hraw.
  assert (5 / 36 / (7 / 72) + 1 = 17 / 7) as -> by field.
  assert (1 / (7 / 72 * (17 / 7)) = 72 / 17) as -> by field.
  rewrite (bool_decide_eq_false_2 (17 / 7 < 0)) by lra.
  rewrite (bool_decide_eq_false_2 (1 < 0.99)) by lra.
  f_equal. cbn [app].
  destruct (decide (l < 72 / 17)) as [Hl|Hl].
  - rewrite (bool_decide_eq_true_2 (_ ∨ _)) by (by right).
    by rewrite (bool_decide_eq_true_2 (l < _)).
  - rewrite (bool_decide_eq_false_2 (_ ∨ _)) by (intros [?|?]; [lra|done]).
    by rewrite (bool_decide_eq_false_2 (l < _)).
Qed.

(** C5 at the four nitrogen points: the loading at the maximum, 3, is
    below the monolayer loading 72/17, and [area_BET_raw] returns its
    results after the one warning of the third check. *)
Lemma consistency_checks_warn_on_nitrogen :
  returned
    (result (area_BET_raw (H := Example.lab) [1; 2; 3; 1] [0.1; 0.2; 0.3; 0.4]
               0.162 None)) ∧
  warned (area_BET_raw (H := Example.lab) [1; 2; 3; 1] [0.1; 0.2; 0.3; 0.4]
            0.162 None)
  = ["The monolayer point is not within the BET region"].
Proof.
  destruct (consistency_checks_are_warnings (H := Example.lab)
    [1; 2; 3; 1] [0.1; 0.2; 0.3; 0.4] 0.162 None 0 2 (5 / 36) (7 / 72) 1
    eq_refl nitrogen_automatic_region nitrogen_regression)
    as (l_min & l_max & Hmin & Hmax & Hres & Hwarn).
  injection Hmin as <-. injection Hmax as <-.
  split; [by eexists|]. rewrite Hwarn.
  assert (5 / 36 / (7 / 72) + 1 = 17 / 7) as -> by field.
  assert (1 / (7 / 72 * (17 / 7)) = 72 / 17) as -> by field.
  rewrite (bool_decide_eq_false_2 (17 / 7 < 0)) by lra.
  rewrite (bool_decide_eq_false_2 (1 < 0.99)) by lra.
  rewrite (bool_decide_eq_true_2 (_ ∨ _)) by (right; lra).
  reflexivity.
Defined.

(** C5, refuted as stated: the warnings are not returned with the
    result.  The loadings [1; 2; 3; 1] and [1; 2; 5; 1] at the nitrogen
    pressures make [area_BET_raw] return one and the same tuple, and the
    first call warns that the monolayer point is not within the BET
    region while the second does not warn: what the caller receives does
    not tell whether a check was violated. *)
Lemma warnings_are_not_in_the_returned_value :
  result (area_BET_raw (H := Example.lab) [1; 2; 3; 1] [0.1; 0.2; 0.3; 0.4] 0.162 None)
  = result (area_BET_raw (H := Example.lab) [1; 2; 5; 1] [0.1; 0.2; 0.3; 0.4] 0.162 None) ∧
  returned
    (result (area_BET_raw (H := Example.lab) [1; 2; 3; 1] [0.1; 0.2; 0.3; 0.4]
               0.162 None)) ∧
  warned (area_BET_raw (H := Example.lab) [1; 2; 3; 1] [0.1; 0.2; 0.3; 0.4] 0.162 None)
  = ["The monolayer point is not within the BET region"] ∧
  warned (area_BET_raw (H := Example.lab) [1; 2; 5; 1] [0.1; 0.2; 0.3; 0.4] 0.162 None)
  = [].
Proof.
  rewrite (area_BET_raw_on_four_points 3 nitrogen_automatic_region).
  rewrite (area_BET_raw_on_four_points 5 nitrogen_automatic_region_5).
  rewrite (bool_decide_eq_true_2 (3 < _)) by lra.
  rewrite (bool_decide_eq_false_2 (5 < _)) by lra.
  split; [reflexivity|]. split; [by eexists|]. split; reflexivity.
Qed.

(** C6 at an isotherm per volume of adsorbent, and at one whose pressures
    and loadings differ in length. *)
Lemma area_BET_fails_fast_examples :
  (area_BET (H := Example.lab) Example.nitrogen_per_volume None false).2
    = ([], Raise (Exception not_per_mass)) ∧
  (area_BET (H := Example.lab) Example.nitrogen_mismatched None false).2
    = ([], Raise (Exception length_mismatch)).
Proof.
  split.
  - apply (area_BET_fails_fast (H := Example.lab) Example.nitrogen_per_volume None false).
    left. discriminate.
  - apply (area_BET_fails_fast (H := Example.lab) Example.nitrogen_mismatched None false).
    right. discriminate.
Defined.


(* ===================================================================== *)
(** ** The Henry and Virial models *)
(* ===================================================================== *)

(** C7.  For a Henry model whose parameter [KH] is not zero, the pressure
    at the loading at [p] is [p], for every pressure [p]. *)
Theorem Henry_pressure_loading_inverse (self : Henry.Henry) (KH p : R) :
  Henry.params self !! "KH" = Some KH →
  KH ≠ 0 →
  (Henry.loading self p ≫= Henry.pressure self) = Return p.
Proof.
  intros HKH Hnz. unfold Henry.loading, Henry.pressure, getkey.
  rewrite HKH. cbn. f_equal. field. done.
Qed.

(** C7 at [KH = 3] and [p = 0.1]. *)
Lemma Henry_pressure_loading_inverse_example :
  (Henry.loading (Henry.mkHenry {[ "KH" := 3 ]}) 0.1
     ≫= Henry.pressure (Henry.mkHenry {[ "KH" := 3 ]})) = Return 0.1.
Proof.
  apply (Henry_pressure_loading_inverse (Henry.mkHenry {[ "KH" := 3 ]}) 3 0.1).
  - reflexivity.
  - lra.
Defined.

(** C9.  [spreading_pressure] of a Virial model raises
    [NotImplementedError] at every pressure, and returns no value. *)
Theorem Virial_spreading_pressure_not_implemented
    (self : Virial.Virial) (pressure : R) :
  Virial.spreading_pressure self pressure = Raise NotImplementedError ∧
  ¬ returned (Virial.spreading_pressure self pressure).
Proof. split; [reflexivity|]. intros [v Hv]. discriminate. Qed.

(** The logarithms of the quotients, one point at a time. *)
Lemma ln_p_over_n_pointwise (pressure loading : list R) :
  ln <$> zip_with Rdiv pressure loading
  = zip_with (λ p n, ln (p / n)) pressure loading.
Proof.
  revert loading.
  induction pressure as [|p pressure IH]; intros [|n loading]; cbn; [done..|].
  by rewrite IH.
Qed.

Section VirialFit.
Context `{Virial.Numpy}.

(** C8.  On loadings and pressures of one length, [fit] hands
    [numpy.polyfit] the loadings, the logarithms of pressure over loading
    and the degree 3.  When that returns the coefficients [c3; c2; c1; c0]
    (highest power first) and the residuals, [fit] leaves the model with
    [C = c3], [B = c2], [A = c1] and [KH = exp (- c0)], its other
    parameters as they were, and returns the square root of the residual
    over the number of points. *)
Theorem Virial_fit_coefficients
    (self : Virial.Virial) (loading pressure : list R)
    (param_guess : gmap string R) (optimization_method : string) (verbose : bool)
    (c3 c2 c1 c0 : R) (residuals : list R) :
  length loading = length pressure →
  Virial.polyfit loading (zip_with (λ p n, ln (p / n)) pressure loading) 3
    = Return ([c3; c2; c1; c0], residuals) →
  Virial.fit loading pressure param_guess optimization_method verbose self =
    ({| Virial.params :=
          <["C" := c3]> (<["B" := c2]> (<["A" := c1]> (<["KH" := exp (- c0)]>
            (Virial.params self)))) |},
     Return ((λ rss, sqrt (rss / INR (length pressure))) <$> residuals)).
Proof.
  intros Hlen Hfit. unfold Virial.fit, Virial.np_divide.
  rewrite bool_decide_eq_true_2 by done.
  unfold mbind, St_bind, st_bind, pure. cbn beta iota.
  rewrite ln_p_over_n_pointwise, Hfit. reflexivity.
Qed.

(** C10.  Two calls of [fit] on one model with the same loadings and
    pressures leave the same parameters and return the same value,
    whatever their [param_guess], [optimization_method] and [verbose]. *)
Theorem Virial_fit_ignores_guess_and_method
    (self : Virial.Virial) (loading pressure : list R)
    (param_guess param_guess' : gmap string R)
    (optimization_method optimization_method' : string) (verbose verbose' : bool) :
  Virial.fit loading pressure param_guess optimization_method verbose self
  = Virial.fit loading pressure param_guess' optimization_method' verbose' self.
Proof. unfold Virial.fit. reflexivity. Qed.

(** After a fit, the pressure of the model at a loading [n] is [n] times
    the exponential of the fitted cubic at [n]: the constant term of the
    cubic comes back out of [KH] through [- ln KH]. *)
Theorem Virial_pressure_after_fit
    (self : Virial.Virial) (loading pressure : list R)
    (param_guess : gmap string R) (optimization_method : string) (verbose : bool)
    (c3 c2 c1 c0 : R) (residuals : list R) (n : R) :
  length loading = length pressure →
  Virial.polyfit loading (zip_with (λ p n, ln (p / n)) pressure loading) 3
    = Return ([c3; c2; c1; c0], residuals) →
  Virial.pressure
    (Virial.fit loading pressure param_guess optimization_method verbose self).1 n
  = Return (n * exp (c0 + c1 * n + c2 * n ^ 2 + c3 * n ^ 3)).
Proof.
  intros Hlen Hfit.
  assert (Virial.fit loading pressure param_guess optimization_method verbose self
          = ({| Virial.params :=
                  <["C" := c3]> (<["B" := c2]> (<["A" := c1]> (<["KH" := exp (- c0)]>
                    (Virial.params self)))) |},
             Return ((λ rss, sqrt (rss / INR (length pressure))) <$> residuals)))
    as ->.
  { unfold Virial.fit, Virial.np_divide.
    rewrite bool_decide_eq_true_2 by done.
    unfold mbind, St_bind, st_bind, pure. cbn beta iota.
    rewrite ln_p_over_n_pointwise, Hfit. reflexivity. }
  unfold Virial.pressure, getkey. cbn [fst Virial.params].
  rewrite !lookup_insert. repeat (case_decide; try done).
  cbn. by rewrite ln_exp, Ropp_involutive.
Qed.

End VirialFit.

(** C8 at five points, with the stand-in [Example.cubic] for the fit. *)
Lemma Virial_fit_coefficients_example :
  Virial.fit (H := Example.cubic) [1; 2; 3; 4; 5] [2; 3; 4; 5; 6] ∅ "Nelder-Mead" false
    (Virial.mkVirial ∅)
  = ({| Virial.params :=
          <["C" := 3]> (<["B" := 2]> (<["A" := 1]> (<["KH" := exp (- 0)]> ∅))) |},
     Return [sqrt (4 / INR 5)]).
Proof.
  apply (Virial_fit_coefficients (H := Example.cubic) (Virial.mkVirial ∅)
           [1; 2; 3; 4; 5] [2; 3; 4; 5; 6] ∅ "Nelder-Mead" false 3 2 1 0 [4]);
    reflexivity.
Defined.

Lemma Virial_pressure_after_fit_example :
  Virial.pressure
    (Virial.fit (H := Example.cubic) [1; 2; 3; 4; 5] [2; 3; 4; 5; 6] ∅ "Nelder-Mead" false
       (Virial.mkVirial ∅)).1 2
  = Return (2 * exp (0 + 1 * 2 + 2 * 2 ^ 2 + 3 * 2 ^ 3)).
Proof.
  apply (Virial_pressure_after_fit (H := Example.cubic) (Virial.mkVirial ∅)
           [1; 2; 3; 4; 5] [2; 3; 4; 5; 6] ∅ "Nelder-Mead" false 3 2 1 0 [4] 2);
    reflexivity.
Defined.


(* ===================================================================== *)
(** ** More on the region and the BET parameters *)
(* ===================================================================== *)

(** Manual limits in [area_BET_raw].  With limits [(low, high)] region
    selection always returns: [maximum] is the last index whose pressure
    is below [high], or the last index of the Roquerol array when no
    pressure is; [minimum] is the first index whose pressure is above
    [low], or 0 when no pressure is. *)
Theorem manual_region_from_limits (roq_t_array pressure : list R) (low high : R) :
  ∃ minimum maximum,
    select_region roq_t_array pressure (Some (low, high)) = Return (minimum, maximum) ∧
    (last_index_where (λ v, v < high) pressure maximum ∨
     (Forall (λ v, ¬ v < high) pressure ∧ maximum = (len roq_t_array - 1)%Z)) ∧
    (first_index_where (λ v, v > low) pressure minimum ∨
     (Forall (λ v, ¬ v > low) pressure ∧ minimum = 0%Z)).
Proof.
  unfold select_region, enumerate. eexists _, _. split; [reflexivity|]. split.
  - destruct (for_break_last (λ v, bool_decide (v < high)) pressure 0
                (len roq_t_array - 1)) as [[-> Hall]|(k & v & -> & Hk & Hv & Hafter)].
    + right. split; [|done]. eapply Forall_impl; [exact Hall|].
      intros w Hw. by apply bool_decide_eq_false in Hw.
    + left. rewrite Z.add_0_l. apply (last_index_where_intro _ _ _ v); [done| |].
      * by apply bool_decide_eq_true in Hv.
      * intros j w Hj Hw. eapply bool_decide_eq_false_1, Hafter; done.
  - destruct (for_break_first (λ v, bool_decide (v > low)) pressure 0 0)
      as [[-> Hall]|(k & v & -> & Hk & Hv & Hbefore)].
    + right. split; [|done]. eapply Forall_impl; [exact Hall|].
      intros w Hw. by apply bool_decide_eq_false in Hw.
    + left. rewrite Z.add_0_l. apply (first_index_where_intro _ _ _ v); [done| |].
      * by apply bool_decide_eq_true in Hv.
      * intros j w Hj Hw. eapply bool_decide_eq_false_1, Hbefore; done.
Qed.

(** The automatic region when the Roquerol array does decrease.  If [m] is
    the first index whose Roquerol value is larger than its successor's,
    region selection returns [maximum = m], and [minimum] is the first
    index whose pressure is above a tenth of the pressure at [m], or 0
    when no pressure is. *)
Theorem automatic_region_at_first_decrease
    (roq_t_array pressure : list R) (m : nat) (x y p_max : R) :
  roq_t_array !! m = Some x → roq_t_array !! S m = Some y → x > y →
  (∀ j u w, (j < m)%nat →
     roq_t_array !! j = Some u → roq_t_array !! S j = Some w → u <= w) →
  pressure !! m = Some p_max →
  ∃ minimum,
    select_region roq_t_array pressure None = Return (minimum, Z.of_nat m) ∧
    (first_index_where (λ v, v > p_max / 10) pressure minimum ∨
     (Forall (λ v, ¬ v > p_max / 10) pressure ∧ minimum = 0%Z)).
Proof.
  intros Hx Hy Hgt Hbefore Hp. unfold select_region, enumerate.
  rewrite (scan_decrease_first [] roq_t_array m x y) by done.
  cbn [mbind outcome_mbind outcome_bind].
  change (len (@nil R)) with 0%Z. rewrite Z.add_0_l.
  rewrite (getitem_lookup _ _ p_max) by (lia || by rewrite Nat2Z.id).
  cbn [outcome_bind]. eexists. split; [reflexivity|].
  destruct (for_break_first (λ v, bool_decide (v > p_max / 10)) pressure 0 0)
    as [[-> Hall]|(k & v & -> & Hk & Hv & Hbefore')].
  - right. split; [|done]. eapply Forall_impl; [exact Hall|].
    intros w Hw. by apply bool_decide_eq_false in Hw.
  - left. rewrite Z.add_0_l. apply (first_index_where_intro _ _ _ v); [done| |].
    + by apply bool_decide_eq_true in Hv.
    + intros j w Hj Hw. eapply bool_decide_eq_false_1, Hbefore'; done.
Qed.

(** The four nitrogen points: the Roquerol array first falls after
    index 2. *)
Lemma automatic_region_of_nitrogen :
  ∃ minimum,
    select_region (roq_transform_array [1; 2; 3; 1] [0.1; 0.2; 0.3; 0.4])
      [0.1; 0.2; 0.3; 0.4] None = Return (minimum, 2%Z) ∧
    (first_index_where (λ v, v > 0.3 / 10) [0.1; 0.2; 0.3; 0.4] minimum ∨
     (Forall (λ v, ¬ v > 0.3 / 10) [0.1; 0.2; 0.3; 0.4] ∧ minimum = 0%Z)).
Proof.
  apply (automatic_region_at_first_decrease
           (roq_transform_array [1; 2; 3; 1] [0.1; 0.2; 0.3; 0.4])
           [0.1; 0.2; 0.3; 0.4] 2 (roq_transform 3 0.3) (roq_transform 1 0.4) 0.3).
  - reflexivity.
  - reflexivity.
  - unfold roq_transform. lra.
  - intros [|[|j]] u w Hj; [| |lia]; intros [= <-] [= <-]; unfold roq_transform; lra.
  - reflexivity.
Defined.

(** X3.  [bet_parameters] inverts the BET line.  For a monolayer loading
    that is not zero and a C constant above zero, the line with intercept
    [1 / (n C)] and slope [(C - 1) / (n C)] gives back [n_monolayer = n]
    and [c_const = C], with the float [p_monolayer = 1 / (sqrt C + 1)]
    and the area [n * cross_section * 1e-18 * Avogadro]. *)
Theorem bet_parameters_round_trip `{Collaborators}
    (n_monolayer c_const cross_section : R) :
  n_monolayer ≠ 0 → c_const > 0 →
  bet_parameters ((c_const - 1) / (n_monolayer * c_const))
                 (1 / (n_monolayer * c_const)) cross_section
  = (n_monolayer, Float (1 / (sqrt c_const + 1)), c_const,
     n_monolayer * cross_section * (/ 10 ^ 18) * Avogadro).
Proof.
  intros Hn Hc. unfold bet_parameters.
  assert ((c_const - 1) / (n_monolayer * c_const) / (1 / (n_monolayer * c_const)) + 1
          = c_const) as -> by (field; split; lra).
  assert (1 / (1 / (n_monolayer * c_const) * c_const) = n_monolayer) as ->
    by (field; split; lra).
  unfold scipy_sqrt. rewrite bool_decide_eq_false_2 by lra.
  reflexivity.
Qed.

(** At [n_monolayer = 4] and [c_const = 2]. *)
Lemma bet_parameters_round_trip_example :
  bet_parameters (H := Example.lab) ((2 - 1) / (4 * 2)) (1 / (4 * 2)) 0.162
  = (4, Float (1 / (sqrt 2 + 1)), 2,
     4 * 0.162 * (/ 10 ^ 18) * Avogadro (Collaborators := Example.lab)).
Proof.
  apply (bet_parameters_round_trip (H := Example.lab) 4 2 0.162); lra.
Defined.


(* ===================================================================== *)
(** ** The isotherm class *)
(* ===================================================================== *)

Lemma in_strings_true (v : Isotherm.pyvalue) (l : list string) :
  Isotherm.in_strings v l = true ↔ ∃ s, v = Isotherm.PStr s ∧ s ∈ l.
Proof.
  destruct v as [|s|x|b]; cbn; split; try done; try (by intros (s' & ? & _)).
  - intros Hs%bool_decide_eq_true. by exists s.
  - intros (s' & [= <-] & Hin). by apply bool_decide_eq_true.
Qed.

Lemma in_keys_true {A} (v : Isotherm.pyvalue) (d : gmap string A) :
  Isotherm.in_keys v d = true ↔ ∃ s, v = Isotherm.PStr s ∧ is_Some (d !! s).
Proof.
  destruct v as [|s|x|b]; cbn; split; try done; try (by intros (s' & ? & _)).
  - intros Hs%bool_decide_eq_true. by exists s.
  - intros (s' & [= <-] & Hin). by apply bool_decide_eq_true.
Qed.

Lemma required_missing (d : gmap string Isotherm.pyvalue) :
  existsb (λ k, bool_decide (d !! k = None))
    ["sample_name"; "sample_batch"; "t_exp"; "gas"] = false ↔
  ∀ k, k ∈ ["sample_name"; "sample_batch"; "t_exp"; "gas"] → is_Some (d !! k).
Proof.
  cbn [existsb]. rewrite !orb_false_iff, !bool_decide_eq_false, !not_eq_None_Some.
  split.
  - intros (H1 & H2 & H3 & H4 & _) k Hk.
    set_unfold. destruct Hk as [->|[->|[->|[->|[]]]]]; done.
  - intros Hall. repeat split; try apply Hall; set_solver.
Qed.

Lemma loading_unit_keys (s : string) :
  is_Some (Isotherm._LOADING_UNITS !! s) ↔ s ∈ ["mol"; "mmol"; "cm3 STP"].
Proof.
  unfold Isotherm._LOADING_UNITS.
  rewrite !lookup_insert_is_Some, lookup_empty, is_Some_alt.
  set_unfold. intuition congruence.
Qed.

Lemma pressure_unit_keys (s : string) :
  is_Some (Isotherm._PRESSURE_UNITS !! s) ↔ s ∈ ["bar"; "Pa"; "atm"].
Proof.
  unfold Isotherm._PRESSURE_UNITS.
  rewrite !lookup_insert_is_Some, lookup_empty, is_Some_alt.
  set_unfold. intuition congruence.
Qed.

(** The guard around the pop of ["id"] changes nothing. *)
Lemma pop_id_guard (d : gmap string Isotherm.pyvalue) (k : string) :
  (if bool_decide (d !! k = None) then (Isotherm.PNone, d) else Isotherm.pop d k)
  = Isotherm.pop d k.
Proof.
  unfold Isotherm.pop. case_bool_decide as Hk; [|done].
  by rewrite Hk, delete_id.
Qed.

(** What is left of the keyword arguments after the fourteen pops. *)
Lemma nested_deletes (d : gmap string Isotherm.pyvalue) :
  delete "exp_type" (delete "is_real" (delete "machine" (delete "project"
    (delete "user" (delete "comment" (delete "lab" (delete "t_act"
      (delete "date" (delete "gas" (delete "t_exp" (delete "sample_batch"
        (delete "sample_name" (delete "id" d)))))))))))))
  = filter unnamed d.
Proof.
  apply map_eq. intros i. rewrite map_lookup_filter.
  destruct (decide (i ∈ Isotherm.named_properties)) as [Hi|Hi].
  - assert (d !! i ≫= (λ x, guard (unnamed (i, x));; Some x) = None) as ->.
    { destruct (d !! i); [|done]. cbn. by rewrite option_guard_False by (by intros []). }
    unfold Isotherm.named_properties in Hi. set_unfold.
    repeat (destruct Hi as [->|Hi];
            [repeat first [ apply lookup_delete_eq
                          | rewrite lookup_delete_ne by discriminate ]|]).
    done.
  - assert (d !! i ≫= (λ x, guard (unnamed (i, x));; Some x) = d !! i) as ->.
    { destruct (d !! i); [|done]. cbn. by rewrite option_guard_True. }
    by rewrite !lookup_delete_ne
      by (intros <-; apply Hi; unfold Isotherm.named_properties; set_solver).
Qed.

(** When the constructor returns, it returns [stored]. *)
Lemma Isotherm_init_Return
    (ma mp ul up : Isotherm.pyvalue) (p : gmap string Isotherm.pyvalue)
    (iso : Isotherm.Isotherm) :
  Isotherm.__init__ ma mp ul up p = Return iso → iso = stored ma mp ul up p.
Proof.
  unfold Isotherm.__init__, stored.
  repeat (match goal with |- context [if ?b then Raise _ else _] => destruct b end;
          [done|]).
  rewrite pop_id_guard. unfold Isotherm.pop. intros [= <-].
  rewrite nested_deletes. by rewrite !lookup_delete_ne by done.
Qed.

Lemma Isotherm_init_accepts
    (ma mp ul up : Isotherm.pyvalue) (p : gmap string Isotherm.pyvalue) :
  accepted ma mp ul up p → returned (Isotherm.__init__ ma mp ul up p).
Proof.
  intros (Hreq & (sa & -> & Hma) & (sp & -> & Hmp) & (sl & -> & Hul) & (su & -> & Hup)).
  unfold Isotherm.__init__.
  rewrite (proj2 (required_missing _) Hreq).
  cbn [Isotherm.is_none orb Isotherm.in_strings Isotherm.in_keys].
  unfold Isotherm._MATERIAL_MODE, Isotherm._PRESSURE_MODE.
  rewrite (bool_decide_eq_true_2 (sa ∈ _)) by done.
  rewrite (bool_decide_eq_true_2 (sp ∈ _)) by done.
  rewrite (bool_decide_eq_true_2 (is_Some (Isotherm._LOADING_UNITS !! _)))
    by (by apply loading_unit_keys).
  rewrite (bool_decide_eq_true_2 (is_Some (Isotherm._PRESSURE_UNITS !! _)))
    by (by apply pressure_unit_keys).
  cbn [negb]. rewrite pop_id_guard. unfold Isotherm.pop. by eexists.
Qed.

Lemma Isotherm_init_accepted
    (ma mp ul up : Isotherm.pyvalue) (p : gmap string Isotherm.pyvalue) :
  returned (Isotherm.__init__ ma mp ul up p) → accepted ma mp ul up p.
Proof.
  intros [iso Hiso]. unfold Isotherm.__init__ in Hiso.
  destruct (existsb _ _) eqn:H1; [done|].
  destruct (Isotherm.is_none ma || Isotherm.is_none mp); [done|].
  destruct (Isotherm.in_strings ma _) eqn:H3; [|done].
  destruct (Isotherm.in_strings mp _) eqn:H4; [|done].
  cbn [negb] in Hiso.
  destruct (Isotherm.is_none ul || Isotherm.is_none up); [done|].
  destruct (Isotherm.in_keys ul _) eqn:H6; [|done].
  destruct (Isotherm.in_keys up _) eqn:H7; [|done].
  split; [by apply required_missing|].
  split; [by apply in_strings_true|]. split; [by apply in_strings_true|].
  apply in_keys_true in H6 as (s & -> & Hs). apply in_keys_true in H7 as (s' & -> & Hs').
  split; [exists s|exists s']; split; try done.
  - by apply loading_unit_keys.
  - by apply pressure_unit_keys.
Qed.

Lemma none_for_named_lookup (k : string) :
  none_for_named !! k =
    if bool_decide (k ∈ Isotherm.named_properties) then Some Isotherm.PNone else None.
Proof.
  unfold none_for_named, Isotherm.named_properties.
  case_bool_decide as Hk.
  - set_unfold. repeat (destruct Hk as [->|Hk]; [by lookup_closed|]). done.
  - rewrite !lookup_insert_ne by (intros <-; apply Hk; set_solver).
    apply lookup_empty.
Qed.

Lemma to_dict_stored (ma mp ul up : Isotherm.pyvalue) (p : gmap string Isotherm.pyvalue) :
  Isotherm.to_dict (stored ma mp ul up p) = p ∪ none_for_named.
Proof.
  apply map_eq. intros i. unfold Isotherm.to_dict, stored.
  cbn [Isotherm.id Isotherm.sample_name Isotherm.sample_batch Isotherm.t_exp
       Isotherm.gas Isotherm.date Isotherm.t_act Isotherm.lab Isotherm.comment
       Isotherm.user Isotherm.project Isotherm.machine Isotherm.is_real
       Isotherm.exp_type Isotherm.other_properties].
  rewrite !lookup_union, map_lookup_filter, none_for_named_lookup.
  case_bool_decide as Hi.
  - assert (p !! i ≫= (λ x, guard (unnamed (i, x));; Some x) = None) as ->.
    { destruct (p !! i); [|done]. cbn. by rewrite option_guard_False by (by intros []). }
    unfold Isotherm.named_properties in Hi. set_unfold.
    repeat (destruct Hi as [->|Hi]; [lookup_closed; by destruct (p !! _)|]). done.
  - assert (p !! i ≫= (λ x, guard (unnamed (i, x));; Some x) = p !! i) as ->.
    { destruct (p !! i); [|done]. cbn. by rewrite option_guard_True. }
    rewrite !lookup_insert_ne
      by (intros <-; apply Hi; unfold Isotherm.named_properties; set_solver).
    rewrite lookup_empty. by destruct (p !! i).
Qed.

Lemma str_add_is_Some (prefix suffix : string) (v : Isotherm.pyvalue) :
  is_Some (Isotherm.str_add prefix v suffix) ↔ ∃ s, v = Isotherm.PStr s.
Proof.
  destruct v; cbn; split; try (by intros [? ?]); eauto.
Qed.

Lemma default_is_string (o : option Isotherm.pyvalue) :
  (∃ s, default Isotherm.PNone o = Isotherm.PStr s) ↔ ∃ s, o = Some (Isotherm.PStr s).
Proof.
  destruct o as [v|]; cbn; split; intros [s Hs]; try done; exists s; congruence.
Qed.

Lemma zeolite_accepted :
  accepted Isotherm.default_mode_adsorbent Isotherm.default_mode_pressure
    Isotherm.default_unit_loading Isotherm.default_unit_pressure Sample.zeolite.
Proof.
  split; [|repeat split; eexists; (split; [reflexivity|set_solver])].
  intros k Hk. unfold Sample.zeolite. set_unfold.
  repeat (destruct Hk as [->|Hk]; [lookup_closed; by eexists|]). done.
Qed.

Lemma Isotherm_init_stored
    (ma mp ul up : Isotherm.pyvalue) (p : gmap string Isotherm.pyvalue) :
  accepted ma mp ul up p →
  Isotherm.__init__ ma mp ul up p = Return (stored ma mp ul up p).
Proof.
  intros [iso Hiso]%Isotherm_init_accepts.
  rewrite Hiso. f_equal. by apply Isotherm_init_Return.
Qed.

Lemma filter_unnamed_lookup (p : gmap string Isotherm.pyvalue) (k : string) :
  filter unnamed p !! k =
    if bool_decide (k ∈ Isotherm.named_properties) then None else p !! k.
Proof.
  rewrite map_lookup_filter. case_bool_decide as Hk.
  - destruct (p !! k); [|done]. cbn. by rewrite option_guard_False by (by intros []).
  - destruct (p !! k); [|done]. cbn. by rewrite option_guard_True.
Qed.

(** X5.  The constructor of [Isotherm] returns an instance exactly when
    the keyword arguments hold the four required parameters
    ([sample_name], [sample_batch], [t_exp], [gas]), the two modes are
    strings of [_MATERIAL_MODE] and [_PRESSURE_MODE], and the two units
    are keys of [_LOADING_UNITS] and [_PRESSURE_UNITS]; in every other
    case it raises. *)
Theorem Isotherm_init_returns_iff
    (mode_adsorbent mode_pressure unit_loading unit_pressure : Isotherm.pyvalue)
    (isotherm_parameters : gmap string Isotherm.pyvalue) :
  returned (Isotherm.__init__ mode_adsorbent mode_pressure unit_loading unit_pressure
              isotherm_parameters)
  ↔ accepted mode_adsorbent mode_pressure unit_loading unit_pressure
      isotherm_parameters.
Proof.
  split; [apply Isotherm_init_accepted | apply Isotherm_init_accepts].
Qed.

(** X6.  When one of the four required parameters is missing from the
    keyword arguments, the constructor raises the exception about the
    missing information, whatever the modes and the units are: that check
    comes first. *)
Theorem Isotherm_init_missing_information
    (ma mp ul up : Isotherm.pyvalue) (p : gmap string Isotherm.pyvalue) (k : string) :
  k ∈ ["sample_name"; "sample_batch"; "t_exp"; "gas"] →
  p !! k = None →
  Isotherm.__init__ ma mp ul up p = Raise (Exception Isotherm.missing_information).
Proof.
  intros Hk Hp. unfold Isotherm.__init__.
  destruct (existsb _ _) eqn:Hreq; [done|].
  apply required_missing with (k := k) in Hreq; [|done].
  rewrite Hp in Hreq. by destruct Hreq.
Qed.

Lemma Isotherm_init_missing_information_example :
  Isotherm.__init__ Isotherm.PNone (Isotherm.PStr "absolute") (Isotherm.PStr "mmol")
    (Isotherm.PStr "bar") (<["sample_name" := Isotherm.PStr "Zeolite-1"]> ∅)
  = Raise (Exception Isotherm.missing_information).
Proof.
  apply (Isotherm_init_missing_information _ _ _ _ _ "gas").
  - set_solver.
  - reflexivity.
Defined.

(** X7.  An instance that the constructor returned keeps, among its other
    properties, exactly the keyword arguments whose key is not a named
    property; its modes are in the lists of the class and its units are
    keys of the unit tables. *)
Theorem Isotherm_init_invariant
    (ma mp ul up : Isotherm.pyvalue) (p : gmap string Isotherm.pyvalue)
    (iso : Isotherm.Isotherm) :
  Isotherm.__init__ ma mp ul up p = Return iso →
  (∀ k, k ∈ Isotherm.named_properties → Isotherm.other_properties iso !! k = None) ∧
  (∀ k, k ∉ Isotherm.named_properties → Isotherm.other_properties iso !! k = p !! k) ∧
  Isotherm.in_strings (Isotherm.mode_adsorbent iso) Isotherm._MATERIAL_MODE = true ∧
  Isotherm.in_strings (Isotherm.mode_pressure iso) Isotherm._PRESSURE_MODE = true ∧
  Isotherm.in_keys (Isotherm.unit_loading iso) Isotherm._LOADING_UNITS = true ∧
  Isotherm.in_keys (Isotherm.unit_pressure iso) Isotherm._PRESSURE_UNITS = true.
Proof.
  intros Hiso.
  destruct (Isotherm_init_accepted ma mp ul up p) as (_ & Hma & Hmp & Hul & Hup);
    [by eexists|].
  apply Isotherm_init_Return in Hiso as ->.
  cbn [stored Isotherm.other_properties Isotherm.mode_adsorbent Isotherm.mode_pressure
       Isotherm.unit_loading Isotherm.unit_pressure].
  split; [|split].
  - intros k Hk. by rewrite filter_unnamed_lookup, bool_decide_eq_true_2.
  - intros k Hk. by rewrite filter_unnamed_lookup, bool_decide_eq_false_2.
  - split; [by apply in_strings_true|]. split; [by apply in_strings_true|].
    destruct Hul as (s & -> & Hs), Hup as (s' & -> & Hs').
    split; apply in_keys_true; eexists; (split; [done|]).
    + by apply loading_unit_keys.
    + by apply pressure_unit_keys.
Qed.

Lemma Isotherm_init_invariant_example :
  let iso := stored Isotherm.default_mode_adsorbent Isotherm.default_mode_pressure
               Isotherm.default_unit_loading Isotherm.default_unit_pressure
               Sample.zeolite in
  (∀ k, k ∈ Isotherm.named_properties → Isotherm.other_properties iso !! k = None) ∧
  (∀ k, k ∉ Isotherm.named_properties →
        Isotherm.other_properties iso !! k = Sample.zeolite !! k) ∧
  Isotherm.in_strings (Isotherm.mode_adsorbent iso) Isotherm._MATERIAL_MODE = true ∧
  Isotherm.in_strings (Isotherm.mode_pressure iso) Isotherm._PRESSURE_MODE = true ∧
  Isotherm.in_keys (Isotherm.unit_loading iso) Isotherm._LOADING_UNITS = true ∧
  Isotherm.in_keys (Isotherm.unit_pressure iso) Isotherm._PRESSURE_UNITS = true.
Proof.
  apply (Isotherm_init_invariant Isotherm.default_mode_adsorbent
           Isotherm.default_mode_pressure Isotherm.default_unit_loading
           Isotherm.default_unit_pressure Sample.zeolite).
  apply Isotherm_init_stored, zeolite_accepted.
Defined.

(** X8.  [to_dict] of an instance that the constructor built from the
    keyword arguments [p] is [p] together with [None] for every named
    property that [p] lacks.  It is the dictionary the instance was
    created from only when [p] holds all fourteen named properties. *)
Theorem Isotherm_to_dict_of_init
    (ma mp ul up : Isotherm.pyvalue) (p : gmap string Isotherm.pyvalue)
    (iso : Isotherm.Isotherm) :
  Isotherm.__init__ ma mp ul up p = Return iso →
  Isotherm.to_dict iso = p ∪ none_for_named ∧
  (Isotherm.to_dict iso = p ↔
   ∀ k, k ∈ Isotherm.named_properties → is_Some (p !! k)).
Proof.
  intros ->%Isotherm_init_Return. rewrite to_dict_stored.
  split; [done|]. split.
  - intros Heq k Hk. rewrite <- Heq, lookup_union, none_for_named_lookup.
    rewrite bool_decide_eq_true_2 by done. by destruct (p !! k).
  - intros Hall. apply map_eq. intros i.
    rewrite lookup_union, none_for_named_lookup. case_bool_decide as Hi.
    + destruct (Hall i Hi) as [v ->]. done.
    + by destruct (p !! i).
Qed.

Lemma Isotherm_to_dict_of_zeolite :
  let iso := stored Isotherm.default_mode_adsorbent Isotherm.default_mode_pressure
               Isotherm.default_unit_loading Isotherm.default_unit_pressure
               Sample.zeolite in
  Isotherm.to_dict iso = Sample.zeolite ∪ none_for_named ∧
  (Isotherm.to_dict iso = Sample.zeolite ↔
   ∀ k, k ∈ Isotherm.named_properties → is_Some (Sample.zeolite !! k)).
Proof.
  apply (Isotherm_to_dict_of_init Isotherm.default_mode_adsorbent
           Isotherm.default_mode_pressure Isotherm.default_unit_loading
           Isotherm.default_unit_pressure Sample.zeolite).
  apply Isotherm_init_stored, zeolite_accepted.
Defined.

(** [__init__] with the default modes and units on the dictionary of an
    instance none of whose other properties has the name of a named
    property. *)
Lemma Isotherm_init_of_to_dict_defaults (self : Isotherm.Isotherm) :
  (∀ k, k ∈ Isotherm.named_properties → Isotherm.other_properties self !! k = None) →
  Isotherm.__init__ Isotherm.default_mode_adsorbent Isotherm.default_mode_pressure
    Isotherm.default_unit_loading Isotherm.default_unit_pressure (Isotherm.to_dict self)
  = Return (with_default_modes self).
Proof.
  intros Hother.
  assert (∀ k, k ∈ Isotherm.named_properties →
            is_Some (Isotherm.to_dict self !! k)) as Hnamed.
  { intros k Hk. unfold Isotherm.to_dict.
    rewrite lookup_union_r by auto.
    unfold Isotherm.named_properties in Hk. set_unfold.
    repeat (destruct Hk as [->|Hk]; [lookup_closed; by eexists|]). done. }
  rewrite Isotherm_init_stored.
  2:{ split; [|repeat split; eexists; (split; [reflexivity|set_solver])].
      intros k Hk. apply Hnamed. unfold Isotherm.named_properties. set_solver. }
  f_equal. unfold with_default_modes, stored. destruct self. cbn in Hother |- *.
  unfold Isotherm.to_dict. cbn.
  rewrite !lookup_union_r by (apply Hother; unfold Isotherm.named_properties; set_solver).
  f_equal; try (by lookup_closed).
  apply map_eq. intros i. rewrite map_lookup_filter, lookup_union.
  destruct (decide (i ∈ Isotherm.named_properties)) as [Hi|Hi].
  - rewrite (Hother i Hi). cbn.
    match goal with |- ?o ≫= _ = _ => destruct o; [|done] end.
    cbn. by rewrite option_guard_False by (by intros []).
  - rewrite !lookup_insert_ne
      by (intros <-; apply Hi; unfold Isotherm.named_properties; set_solver).
    rewrite lookup_empty.
    destruct (other_properties !! i); cbn; [|done]. by rewrite option_guard_True.
Qed.

Lemma to_dict_lookup_unnamed (self : Isotherm.Isotherm) (k : string) :
  k ∉ Isotherm.named_properties →
  Isotherm.to_dict self !! k = Isotherm.other_properties self !! k.
Proof.
  intros Hk. unfold Isotherm.to_dict. rewrite lookup_union.
  rewrite !lookup_insert_ne
    by (intros <-; apply Hk; unfold Isotherm.named_properties; set_solver).
  rewrite lookup_empty. by destruct (Isotherm.other_properties self !! k).
Qed.

(** X9.  The constructor undoes [to_dict]: when none of the other
    properties of an instance has the name of a named property, of a
    parameter of [__init__] or of [self], the call of [Isotherm] on the
    unpacked dictionary [**self.to_dict()] returns the instance, its
    modes and units replaced by the defaults ([to_dict] does not hold
    them). *)
Theorem Isotherm_init_of_to_dict (self : Isotherm.Isotherm) :
  (∀ k, k ∈ Isotherm.named_properties ++ Isotherm.parameter_names ++ ["self"] →
        Isotherm.other_properties self !! k = None) →
  Isotherm.new (Isotherm.to_dict self) = Return (with_default_modes self).
Proof.
  intros Hother.
  assert (∀ k, k ∈ Isotherm.parameter_names ++ ["self"] →
            Isotherm.to_dict self !! k = None) as Hp.
  { intros k Hk. rewrite to_dict_lookup_unnamed.
    - apply Hother. set_solver.
    - unfold Isotherm.parameter_names, Isotherm.named_properties in *.
      set_unfold. naive_solver. }
  unfold Isotherm.new.
  rewrite bool_decide_eq_false_2
    by (rewrite Hp by (unfold Isotherm.parameter_names; set_solver); by intros []).
  rewrite !Hp by (unfold Isotherm.parameter_names; set_solver).
  cbn [default from_option].
  rewrite (delete_id (Isotherm.to_dict self) "mode_adsorbent")
    by (apply Hp; unfold Isotherm.parameter_names; set_solver).
  rewrite (delete_id (Isotherm.to_dict self) "mode_pressure")
    by (apply Hp; unfold Isotherm.parameter_names; set_solver).
  rewrite (delete_id (Isotherm.to_dict self) "unit_loading")
    by (apply Hp; unfold Isotherm.parameter_names; set_solver).
  rewrite (delete_id (Isotherm.to_dict self) "unit_pressure")
    by (apply Hp; unfold Isotherm.parameter_names; set_solver).
  apply Isotherm_init_of_to_dict_defaults.
  intros k Hk. apply Hother. set_solver.
Qed.

Lemma Isotherm_init_of_to_dict_paper :
  Isotherm.new (Isotherm.to_dict Sample.paper) = Return (with_default_modes Sample.paper).
Proof.
  apply (Isotherm_init_of_to_dict Sample.paper).
  intros k Hk. apply lookup_singleton_ne. intros <-.
  unfold Isotherm.named_properties, Isotherm.parameter_names in Hk.
  set_unfold. naive_solver.
Defined.

(** X10.  [__str__] returns the summary exactly when the sample name, the
    batch, the experiment type, the gas, the date, the machine, the user
    and the comment of the instance are all strings; otherwise one of its
    concatenations fails.  The two temperatures and [is_real] may hold
    anything. *)
Theorem Isotherm_str_returns_iff (str : Isotherm.pyvalue → string)
    (self : Isotherm.Isotherm) :
  is_Some (Isotherm.__str__ str self) ↔
  ∀ v, v ∈ [Isotherm.sample_name self; Isotherm.sample_batch self;
            Isotherm.exp_type self; Isotherm.gas self; Isotherm.date self;
            Isotherm.machine self; Isotherm.user self; Isotherm.comment self] →
       ∃ s, v = Isotherm.PStr s.
Proof.
  unfold Isotherm.__str__. split.
  - intros Hstr v Hv.
    repeat match type of Hstr with
    | is_Some (Isotherm.str_add ?p ?w ?q ≫= _) =>
        let E := fresh "E" in
        destruct (Isotherm.str_add p w q) eqn:E; [|by destruct Hstr];
        apply mk_is_Some, str_add_is_Some in E; cbn [mbind option_bind] in Hstr
    end.
    set_unfold. naive_solver.
  - intros Hall.
    repeat match goal with
    | |- is_Some (Isotherm.str_add ?p ?w ?q ≫= _) =>
        let s := fresh "s" in
        destruct (Hall w) as [s ->]; [set_solver|]; cbn [Isotherm.str_add mbind option_bind]
    end.
    done.
Qed.

(** X11.  An instance that the constructor built from the keyword
    arguments [p] can be printed exactly when [p] gives a string for each
    of [sample_name], [sample_batch], [exp_type], [gas], [date],
    [machine], [user] and [comment]: the four required parameters are not
    enough for [__str__]. *)
Theorem Isotherm_str_of_init (str : Isotherm.pyvalue → string)
    (ma mp ul up : Isotherm.pyvalue) (p : gmap string Isotherm.pyvalue)
    (iso : Isotherm.Isotherm) :
  Isotherm.__init__ ma mp ul up p = Return iso →
  is_Some (Isotherm.__str__ str iso) ↔
  ∀ k, k ∈ ["sample_name"; "sample_batch"; "exp_type"; "gas"; "date"; "machine";
            "user"; "comment"] → ∃ s, p !! k = Some (Isotherm.PStr s).
Proof.
  intros ->%Isotherm_init_Return. unfold Isotherm.__str__, stored.
  cbn [Isotherm.sample_name Isotherm.sample_batch Isotherm.exp_type Isotherm.gas
       Isotherm.date Isotherm.machine Isotherm.user Isotherm.comment
       Isotherm.is_real Isotherm.t_act Isotherm.t_exp].
  split.
  - intros Hstr k Hk. apply default_is_string.
    repeat match type of Hstr with
    | is_Some (Isotherm.str_add ?a ?w ?b ≫= _) =>
        let E := fresh "E" in
        destruct (Isotherm.str_add a w b) eqn:E; [|by destruct Hstr];
        apply mk_is_Some, str_add_is_Some in E; cbn [mbind option_bind] in Hstr
    end.
    set_unfold. naive_solver.
  - intros Hall.
    repeat match goal with
    | |- is_Some (Isotherm.str_add ?a (default _ (p !! ?k)) ?b ≫= _) =>
        let s := fresh "s" in
        let Hs := fresh "Hs" in
        destruct (Hall k) as [s Hs]; [set_solver|];
        rewrite Hs; cbn [from_option Datatypes.id Isotherm.str_add mbind option_bind]
    end.
    done.
Qed.

Lemma Isotherm_str_of_zeolite :
  is_Some (Isotherm.__str__ (λ _, "200")
             (stored Isotherm.default_mode_adsorbent Isotherm.default_mode_pressure
                Isotherm.default_unit_loading Isotherm.default_unit_pressure
                Sample.zeolite)) ↔
  ∀ k, k ∈ ["sample_name"; "sample_batch"; "exp_type"; "gas"; "date"; "machine";
            "user"; "comment"] → ∃ s, Sample.zeolite !! k = Some (Isotherm.PStr s).
Proof.
  apply (Isotherm_str_of_init (λ _, "200") Isotherm.default_mode_adsorbent
           Isotherm.default_mode_pressure Isotherm.default_unit_loading
           Isotherm.default_unit_pressure Sample.zeolite).
  apply Isotherm_init_stored, zeolite_accepted.
Defined.


(* ===================================================================== *)
(** ** The region that [area_BET_raw] fits *)
(* ===================================================================== *)

Lemma getitem_nil (i : Z) : getitem [] i = Raise IndexError.
Proof. unfold getitem. by repeat case_match. Qed.

Lemma slice_empty {A} (a : list A) (lo hi : Z) :
  (0 ≤ hi ≤ lo)%Z → slice a lo hi = [].
Proof.
  intros Hle. unfold slice, slice_bound.
  destruct (Z.ltb_spec lo 0); [lia|]. destruct (Z.ltb_spec hi 0); [lia|].
  replace (Z.to_nat (hi `min` len a) - Z.to_nat (lo `min` len a))%nat with 0%nat by lia.
  done.
Qed.

(** Inversion of a sequence in [W] that returns. *)
Lemma W_bind_Return {A B} (m : W A) (k : A → W B) (w : list string) (b : B) :
  (m ≫= k) = (w, Return b) →
  ∃ a w1 w2, m = (w1, Return a) ∧ k a = (w2, Return b) ∧ w = w1 ++ w2.
Proof.
  unfold mbind, W_bind, bind. destruct m as [w1 [a|e]]; [|done].
  destruct (k a) as [w2 o] eqn:Hk. intros [= <- ->]. by exists a, w1, w2.
Qed.

(** What the scan for the first decrease found, when it returns. *)
Lemma scan_decrease_sound (pre suf : list R) (default m : Z) :
  scan_decrease (pre ++ suf) (enumerate_from (len pre) suf) default = Return m →
  (suf = [] ∧ m = default) ∨
  ∃ (k : nat) (x y : R),
    m = (len pre + Z.of_nat k)%Z ∧ suf !! k = Some x ∧ suf !! S k = Some y ∧ x > y ∧
    ∀ j u v, (j < k)%nat → suf !! j = Some u → suf !! S j = Some v → u <= v.
Proof.
  revert pre. induction suf as [|x0 suf IH]; intros pre; cbn [enumerate_from scan_decrease].
  - intros [= <-]. by left.
  - intros Hscan. right.
    destruct (getitem (pre ++ x0 :: suf) (len pre + 1)) as [next|e] eqn:Hnext; [|done].
    pose proof (len_nonneg pre).
    apply getitem_nonneg in Hnext; [|lia].
    replace (Z.to_nat (len pre + 1)) with (length pre + 1)%nat in Hnext by (unfold len; lia).
    rewrite lookup_app_r in Hnext by lia.
    replace (length pre + 1 - length pre)%nat with 1%nat in Hnext by lia.
    change (suf !! 0%nat = Some next) in Hnext.
    case_bool_decide as Hgt.
    + injection Hscan as <-. exists 0%nat, x0, next.
      split; [lia|]. split; [done|]. split; [done|]. split; [done|]. lia.
    + replace (pre ++ x0 :: suf) with ((pre ++ [x0]) ++ suf) in Hscan
        by (by rewrite <- app_assoc).
      replace (len pre + 1)%Z with (len (pre ++ [x0])) in Hscan
        by (rewrite len_app, len_cons, len_nil; lia).
      apply IH in Hscan as [[-> _]|(k & x & y & -> & Hx & Hy & Hxy & Hbefore)]; [done|].
      exists (S k), x, y. split; [rewrite len_app, len_cons, len_nil; lia|].
      split; [done|]. split; [done|]. split; [done|].
      intros [|j] u v Hj.
      * intros [= <-]. change (suf !! 0%nat = Some v → x0 <= v).
        rewrite Hnext. intros [= <-]. lra.
      * apply Hbefore. lia.
Qed.

Lemma nitrogen_narrow_region :
  select_region (roq_transform_array [1; 2; 3; 1] [0.1; 0.2; 0.3; 0.4])
    [0.1; 0.2; 0.3; 0.4] (Some (0.25, 0.35)) = Return (2%Z, 2%Z).
Proof. py_eval. reflexivity. Qed.

Section RawRegion.
Context `{Collaborators}.

Lemma area_BET_raw_Return (loading pressure : list R) (cross_section : R)
    (limits : option (R * R)) (w : list string)
    (bet_area c_const n_monolayer : R) (p_monolayer : number) (slope intercept : R)
    (minimum maximum : Z) (corr_coef : R) :
  area_BET_raw loading pressure cross_section limits
    = (w, Return (bet_area, c_const, n_monolayer, p_monolayer,
                  slope, intercept, minimum, maximum, corr_coef)) →
  length pressure = length loading ∧
  select_region (roq_transform_array loading pressure) pressure limits
    = Return (minimum, maximum) ∧
  bet_optimisation (slice pressure minimum maximum)
    (bet_transform_array (slice loading minimum maximum)
                         (slice pressure minimum maximum))
    = Return (slope, intercept, corr_coef) ∧
  (n_monolayer, p_monolayer, c_const, bet_area)
    = bet_parameters slope intercept cross_section.
Proof.
  unfold area_BET_raw. case_bool_decide as Hlen; [done|].
  intros ([mn mx] & w1 & w2 & Hsel & Hrest & _)%W_bind_Return.
  injection Hsel as _ Hsel.
  apply W_bind_Return in Hrest as ([[s i] r] & w3 & w4 & Hfit & Hrest & _).
  injection Hfit as _ Hfit.
  destruct (bet_parameters s i cross_section) as [[[n p] c] a] eqn:Hpar.
  apply W_bind_Return in Hrest as ([] & ? & ? & _ & Hrest & _).
  apply W_bind_Return in Hrest as ([] & ? & ? & _ & Hrest & _).
  apply W_bind_Return in Hrest as (l_min & ? & ? & _ & Hrest & _).
  apply W_bind_Return in Hrest as ([] & ? & ? & _ & Hrest & _).
  injection Hrest as _ -> -> -> -> -> -> -> -> ->.
  rewrite Hsel, Hfit, Hpar. done.
Qed.

Lemma area_BET_raw_Return_in_range (loading pressure : list R) (cross_section : R)
    (limits : option (R * R)) (w : list string)
    (bet_area c_const n_monolayer : R) (p_monolayer : number) (slope intercept : R)
    (minimum maximum : Z) (corr_coef : R) :
  area_BET_raw loading pressure cross_section limits
    = (w, Return (bet_area, c_const, n_monolayer, p_monolayer,
                  slope, intercept, minimum, maximum, corr_coef)) →
  (0 ≤ minimum < len pressure)%Z ∧ (0 ≤ maximum < len pressure)%Z.
Proof.
  intros (Hlen & Hsel & Hfit & _)%area_BET_raw_Return.
  apply (select_region_in_range loading pressure limits); [done| |done].
  intros ->. by rewrite slice_nil, bet_optimisation_empty in Hfit.
Qed.

(** Once the region is selected and the regression has returned, the
    call returns: the consistency checks only warn. *)
Lemma area_BET_raw_returns (loading pressure : list R) (cross_section : R)
    (limits : option (R * R)) (minimum maximum : Z) (slope intercept corr_coef : R) :
  length pressure = length loading →
  select_region (roq_transform_array loading pressure) pressure limits
    = Return (minimum, maximum) →
  bet_optimisation (slice pressure minimum maximum)
    (bet_transform_array (slice loading minimum maximum)
                         (slice pressure minimum maximum))
    = Return (slope, intercept, corr_coef) →
  ∃ w bet_area c_const n_monolayer p_monolayer,
    area_BET_raw loading pressure cross_section limits
    = (w, Return (bet_area, c_const, n_monolayer, p_monolayer,
                  slope, intercept, minimum, maximum, corr_coef)).
Proof.
  intros Hlen Hsel Hfit.
  assert (pressure ≠ []) as Hne.
  { intros ->. by rewrite slice_nil, bet_optimisation_empty in Hfit. }
  destruct (select_region_in_range _ _ _ _ _ Hlen Hne Hsel) as [Hmin Hmax].
  assert (len loading = len pressure) as Hlen' by (unfold len; lia).
  destruct (getitem_in_range loading minimum) as [l_min Hl_min]; [lia|].
  destruct (getitem_in_range loading maximum) as [l_max Hl_max]; [lia|].
  unfold area_BET_raw.
  rewrite bool_decide_eq_false_2 by (intros ?; done).
  rewrite Hsel, W_bind_lift_Return. cbn beta iota zeta.
  rewrite Hfit, W_bind_lift_Return.
  destruct (bet_parameters slope intercept cross_section)
    as [[[n_monolayer p_monolayer] c_const] bet_area].
  rewrite !W_bind_warn_if, Hl_min, W_bind_lift_Return.
  destruct (decide (l_min > n_monolayer)) as [Hgt|Hgt].
  - rewrite (bool_decide_eq_true_2 (l_min > _)) by done.
    rewrite W_bind_warn. by eexists _, _, _, _, _.
  - rewrite (bool_decide_eq_false_2 (l_min > _)) by done.
    rewrite Hl_max, W_bind_lift_Return, W_bind_warn_if. by eexists _, _, _, _, _.
Qed.

(** X12.  Whenever [area_BET_raw] returns, the region it reports has
    points to fit: [0 <= minimum < maximum < len(pressure)]. *)
Theorem area_BET_raw_returns_a_region_with_points
    (loading pressure : list R) (cross_section : R)
    (limits : option (R * R)) (w : list string)
    (bet_area c_const n_monolayer : R) (p_monolayer : number) (slope intercept : R)
    (minimum maximum : Z) (corr_coef : R) :
  area_BET_raw loading pressure cross_section limits
    = (w, Return (bet_area, c_const, n_monolayer, p_monolayer,
                  slope, intercept, minimum, maximum, corr_coef)) →
  (0 ≤ minimum < maximum)%Z ∧ (maximum < len pressure)%Z.
Proof.
  intros Hraw.
  destruct (area_BET_raw_Return_in_range _ _ _ _ _ _ _ _ _ _ _ _ _ _ Hraw) as [Hmn Hmx].
  apply area_BET_raw_Return in Hraw as (_ & _ & Hfit & _).
  destruct (decide (maximum ≤ minimum)%Z) as [Hle|Hlt]; [|lia].
  by rewrite !slice_empty, bet_optimisation_empty in Hfit by lia.
Qed.




(** X14.  A region without points is refused: when the selected maximum
    is not above the selected minimum, the slices handed to the
    regression are empty and [area_BET_raw] raises [ValueError], before
    any consistency check. *)
Theorem region_without_points_is_refused
    (loading pressure : list R) (cross_section : R) (limits : option (R * R))
    (minimum maximum : Z) :
  length pressure = length loading →
  select_region (roq_transform_array loading pressure) pressure limits
    = Return (minimum, maximum) →
  (0 ≤ maximum ≤ minimum)%Z →
  area_BET_raw loading pressure cross_section limits = ([], Raise ValueError).
Proof.
  intros Hlen Hsel Hle. unfold area_BET_raw.
  rewrite bool_decide_eq_false_2 by (intros ?; done).
  rewrite Hsel, W_bind_lift_Return. cbn beta iota zeta.
  by rewrite !slice_empty, bet_optimisation_empty by done.
Qed.

(** X15.  With fewer than two points [area_BET_raw] always raises:
    [IndexError] in automatic mode, [ValueError] with manual limits. *)
Theorem fewer_than_two_points_always_raise
    (loading pressure : list R) (cross_section : R) (limits : option (R * R)) :
  length pressure = length loading →
  (length pressure < 2)%nat →
  area_BET_raw loading pressure cross_section limits =
    ([], Raise match limits with None => IndexError | Some _ => ValueError end).
Proof.
  intros Hlen Hfew. unfold area_BET_raw.
  rewrite bool_decide_eq_false_2 by (intros ?; done).
  destruct limits as [[low high]|].
  - destruct (select_region (roq_transform_array loading pressure) pressure
                (Some (low, high))) as [[mn mx]|e] eqn:Hsel; [|done].
    rewrite W_bind_lift_Return. cbn beta iota zeta.
    destruct pressure as [|p0 [|? ?]]; [| |cbn in Hfew; lia].
    + by rewrite !slice_nil, bet_optimisation_empty.
    + apply select_region_in_range in Hsel as [Hmn Hmx]; [|done..].
      change (len [p0]) with 1%Z in Hmn, Hmx.
      by rewrite !slice_empty, bet_optimisation_empty by lia.
  - assert (select_region (roq_transform_array loading pressure) pressure None
            = Raise IndexError) as ->; [|done].
    unfold select_region, enumerate.
    destruct pressure as [|p0 [|? ?]]; [| |cbn in Hfew; lia].
    + destruct loading; [|done]. reflexivity.
    + destruct loading as [|l0 [|? ?]]; [done| |done].
      rewrite (scan_decrease_no_decrease [] [roq_transform l0 p0]); [done..|].
      by intros [|i] x y.
Qed.

End RawRegion.

Lemma area_BET_raw_returns_a_region_of_nitrogen :
  (0 ≤ 0 < 2)%Z ∧ (2 < len [0.1; 0.2; 0.3; 0.4]%R)%Z.
Proof.
  destruct (area_BET_raw_returns (H := Example.lab)
              [1; 2; 3; 1] [0.1; 0.2; 0.3; 0.4] 0.162 None 0 2 (5 / 36) (7 / 72) 1
              eq_refl nitrogen_automatic_region nitrogen_regression)
    as (w & a & c & n & p & Hraw).
  exact (area_BET_raw_returns_a_region_with_points (H := Example.lab)
           _ _ _ _ _ _ _ _ _ _ _ _ _ _ Hraw).
Defined.

Lemma narrow_limits_are_refused :
  area_BET_raw (H := Example.lab) [1; 2; 3; 1] [0.1; 0.2; 0.3; 0.4] 0.162
    (Some (0.25, 0.35)) = ([], Raise ValueError).
Proof.
  apply (region_without_points_is_refused (H := Example.lab)
           [1; 2; 3; 1] [0.1; 0.2; 0.3; 0.4] 0.162 (Some (0.25, 0.35)) 2 2).
  - reflexivity.
  - exact nitrogen_narrow_region.
  - lia.
Defined.

Lemma one_point_always_raises :
  area_BET_raw (H := Example.lab) [1] [0.1] 0.162 None = ([], Raise IndexError).
Proof.
  apply (fewer_than_two_points_always_raise (H := Example.lab) [1] [0.1] 0.162 None).
  - reflexivity.
  - cbn. lia.
Defined.

(** X16.  In automatic mode region selection returns only at a decrease:
    when it returns, [maximum] is the first index at which the Roquerol
    array is larger than at its successor, so it is never the last index,
    and the fallback [len(roq_t_array) - 1] is never the answer. *)
Theorem automatic_region_only_at_a_decrease
    (roq_t_array pressure : list R) (minimum maximum : Z) :
  length roq_t_array = length pressure →
  select_region roq_t_array pressure None = Return (minimum, maximum) →
  ∃ (m : nat) (x y : R),
    maximum = Z.of_nat m ∧
    roq_t_array !! m = Some x ∧ roq_t_array !! S m = Some y ∧ x > y ∧
    (∀ j u v, (j < m)%nat →
       roq_t_array !! j = Some u → roq_t_array !! S j = Some v → u <= v) ∧
    (maximum < len roq_t_array - 1)%Z.
Proof.
  intros Hlen. unfold select_region, enumerate.
  destruct (scan_decrease _ _ _) as [mx|e] eqn:Hscan; [|done].
  cbn [mbind outcome_mbind outcome_bind].
  destruct (getitem pressure mx) as [p_max|e] eqn:Hp; [|done].
  cbn [outcome_bind]. intros [= _ <-].
  apply (scan_decrease_sound [] roq_t_array) in Hscan
    as [[-> ->]|(k & x & y & -> & Hx & Hy & Hxy & Hbefore)].
  - destruct pressure; [|done]. by rewrite getitem_nil in Hp.
  - exists k, x, y. change (len (@nil R)) with 0%Z. rewrite Z.add_0_l.
    split; [done|]. split; [done|]. split; [done|]. split; [done|]. split; [done|].
    apply lookup_lt_Some in Hy. unfold len. lia.
Qed.

Lemma automatic_region_only_at_a_decrease_of_nitrogen :
  ∃ (m : nat) (x y : R),
    2%Z = Z.of_nat m ∧
    roq_transform_array [1; 2; 3; 1] [0.1; 0.2; 0.3; 0.4] !! m = Some x ∧
    roq_transform_array [1; 2; 3; 1] [0.1; 0.2; 0.3; 0.4] !! S m = Some y ∧ x > y ∧
    (∀ j u v, (j < m)%nat →
       roq_transform_array [1; 2; 3; 1] [0.1; 0.2; 0.3; 0.4] !! j = Some u →
       roq_transform_array [1; 2; 3; 1] [0.1; 0.2; 0.3; 0.4] !! S j = Some v →
       u <= v) ∧
    (2 < len (roq_transform_array [1; 2; 3; 1]%R [0.1; 0.2; 0.3; 0.4]%R) - 1)%Z.
Proof.
  apply (automatic_region_only_at_a_decrease
           (roq_transform_array [1; 2; 3; 1] [0.1; 0.2; 0.3; 0.4])
           [0.1; 0.2; 0.3; 0.4] 0 2).
  - reflexivity.
  - exact nitrogen_automatic_region.
Defined.

(** X17.  In automatic mode, when the pressure at the selected maximum is
    positive, the selected minimum is not above the maximum:
    [0 <= minimum <= maximum]. *)
Theorem automatic_minimum_not_above_maximum
    (roq_t_array pressure : list R) (minimum maximum : Z) (p_max : R) :
  length roq_t_array = length pressure →
  select_region roq_t_array pressure None = Return (minimum, maximum) →
  getitem pressure maximum = Return p_max →
  p_max > 0 →
  (0 ≤ minimum ≤ maximum)%Z.
Proof.
  intros Hlen Hsel Hp Hpos.
  assert (0 ≤ maximum)%Z as Hmax.
  { unfold select_region, enumerate in Hsel.
    destruct (scan_decrease _ _ _) as [mx|e] eqn:Hscan; [|done].
    cbn [mbind outcome_mbind outcome_bind] in Hsel.
    destruct (getitem pressure mx) as [q|e] eqn:Hq; [|done].
    cbn [outcome_bind] in Hsel. injection Hsel as _ <-.
    apply (scan_decrease_sound [] roq_t_array) in Hscan as [[-> ->]|(k & ? & ? & -> & _)].
    - destruct pressure; [|done]. by rewrite getitem_nil in Hq.
    - change (len (@nil R)) with 0%Z. lia. }
  unfold select_region, enumerate in Hsel.
  destruct (scan_decrease _ _ _) as [mx|e]; [|done].
  cbn [mbind outcome_mbind outcome_bind] in Hsel.
  destruct (getitem pressure mx) as [q|e] eqn:Hq; [|done].
  cbn [outcome_bind] in Hsel. injection Hsel as <- <-.
  rewrite Hq in Hp. injection Hp as ->.
  apply getitem_nonneg in Hq; [|done].
  destruct (for_break_first (λ value, bool_decide (value > p_max / 10)) pressure 0 0)
    as [[-> _]|(k & v & -> & Hk & Hv & Hbefore)]; [lia|].
  split; [lia|]. rewrite Z.add_0_l.
  destruct (decide (Z.to_nat mx < k)%nat) as [Hlt|Hge]; [|lia].
  specialize (Hbefore _ _ Hlt Hq). apply bool_decide_eq_false in Hbefore. lra.
Qed.

Lemma automatic_minimum_of_nitrogen : (0 ≤ 0 ≤ 2)%Z.
Proof.
  apply (automatic_minimum_not_above_maximum
           (roq_transform_array [1; 2; 3; 1] [0.1; 0.2; 0.3; 0.4])
           [0.1; 0.2; 0.3; 0.4] 0 2 0.3).
  - reflexivity.
  - exact nitrogen_automatic_region.
  - reflexivity.
  - lra.
Defined.

(** X18.  [bet_transform] linearises the BET equation: for a loading
    [n = n_m C p / ((1 - p) (1 + (C - 1) p))] at the relative pressure
    [p], the transform is [1 / (n_m C) + (C - 1) / (n_m C) * p], the line
    whose slope and intercept [bet_parameters] reads. *)
Theorem bet_transform_of_the_BET_equation (n_m C p : R) :
  n_m ≠ 0 → C ≠ 0 → p ≠ 0 → p ≠ 1 → 1 + (C - 1) * p ≠ 0 →
  bet_transform (n_m * C * p / ((1 - p) * (1 + (C - 1) * p))) p
  = 1 / (n_m * C) + (C - 1) / (n_m * C) * p.
Proof.
  intros Hn HC Hp Hp1 Hden. unfold bet_transform, roq_transform.
  field. repeat split; try done; lra.
Qed.

Lemma bet_transform_of_the_BET_equation_example :
  bet_transform (4 * 2 * (1 / 10) / ((1 - 1 / 10) * (1 + (2 - 1) * (1 / 10)))) (1 / 10)
  = 1 / (4 * 2) + (2 - 1) / (4 * 2) * (1 / 10).
Proof.
  apply (bet_transform_of_the_BET_equation 4 2 (1 / 10)); lra.
Defined.

(** X19.  The monolayer point that [bet_parameters] computes lies on the
    fitted BET line: for an intercept other than zero and a C constant
    above zero, [p_monolayer] is a float and the BET transform of
    [(n_monolayer, p_monolayer)] is [intercept + slope * p_monolayer]. *)
Theorem monolayer_point_on_the_BET_line `{Collaborators}
    (slope intercept cross_section : R) :
  intercept ≠ 0 →
  slope / intercept + 1 > 0 →
  let '(n_monolayer, p_monolayer, c_const, bet_area) :=
    bet_parameters slope intercept cross_section in
  ∃ p, p_monolayer = Float p ∧
       bet_transform n_monolayer p = intercept + slope * p ∧
       bet_transform_number n_monolayer p_monolayer = Float (intercept + slope * p).
Proof.
  intros Hi Hc. unfold bet_parameters, scipy_sqrt.
  rewrite bool_decide_eq_false_2 by lra. cbn [number_add number_div].
  eexists. split; [reflexivity|].
  assert (bet_transform (1 / (intercept * (slope / intercept + 1)))
            (1 / (sqrt (slope / intercept + 1) + 1))
          = intercept + slope * (1 / (sqrt (slope / intercept + 1) + 1))) as Hline.
  { unfold bet_transform, roq_transform.
    remember (slope / intercept + 1) as c eqn:Hcdef.
    assert (slope = intercept * (c - 1)) as Hslope by (subst c; by field).
    clear Hcdef. subst slope.
    remember (sqrt c) as s eqn:Hsdef.
    assert (0 < s) as Hs by (subst s; by apply sqrt_lt_R0).
    assert (s * s = c) as Hss by (subst s; apply sqrt_sqrt; lra).
    clear Hsdef. subst c.
    field. repeat split; nra. }
  split; [exact Hline|].
  unfold bet_transform_number, roq_transform_number.
  cbn [number_sub number_mul number_div]. f_equal. exact Hline.
Qed.

Lemma monolayer_point_on_the_BET_line_example :
  let '(n_monolayer, p_monolayer, c_const, bet_area) :=
    bet_parameters (H := Example.lab) (5 / 36) (7 / 72) 0.162 in
  ∃ p, p_monolayer = Float p ∧
       bet_transform n_monolayer p = 7 / 72 + 5 / 36 * p ∧
       bet_transform_number n_monolayer p_monolayer = Float (7 / 72 + 5 / 36 * p).
Proof.
  apply (monolayer_point_on_the_BET_line (H := Example.lab) (5 / 36) (7 / 72) 0.162); lra.
Defined.


(* ===================================================================== *)
(** ** The Henry and the Virial model, continued *)
(* ===================================================================== *)

(** X20.  The other round trip of the Henry model: for a Henry constant
    other than zero, the loading at the pressure of a loading [l] is [l]. *)
Theorem Henry_loading_pressure_inverse (self : Henry.Henry) (KH l : R) :
  Henry.params self !! "KH" = Some KH →
  KH ≠ 0 →
  (Henry.pressure self l ≫= Henry.loading self) = Return l.
Proof.
  intros HKH Hnz. unfold Henry.loading, Henry.pressure, getkey.
  rewrite HKH. cbn. f_equal. by field.
Qed.

Lemma Henry_loading_pressure_inverse_example :
  (Henry.pressure (Henry.mkHenry {[ "KH" := 3 ]}) 12
     ≫= Henry.loading (Henry.mkHenry {[ "KH" := 3 ]})) = Return 12.
Proof.
  apply (Henry_loading_pressure_inverse (Henry.mkHenry {[ "KH" := 3 ]}) 3 12).
  - reflexivity.
  - lra.
Defined.

Section VirialFitState.
Context `{Virial.Numpy}.

(** X21.  [Virial.fit] assigns all four parameters or none: when it
    raises (the division, the polynomial fit, or a coefficient array
    shorter than four), the parameters of the model are as before the
    call; when it returns, [KH], [A], [B] and [C] have all been assigned
    and every other entry of [params] is kept.  (The printing and the
    plot of [verbose] are outside the model.) *)
Theorem Virial_fit_all_or_nothing
    (self : Virial.Virial) (loading pressure : list R)
    (param_guess : gmap string R) (optimization_method : string) (verbose : bool) :
  let '(after, result) :=
    Virial.fit loading pressure param_guess optimization_method verbose self in
  (after = self ∧ ∃ e, result = Raise e) ∨
  (∃ rmse c3 c2 c1 c0,
     result = Return rmse ∧
     Virial.params after =
       <["C" := c3]> (<["B" := c2]> (<["A" := c1]> (<["KH" := exp (- c0)]>
         (Virial.params self))))).
Proof.
  unfold Virial.fit, mbind, St_bind, st_bind, pure.
  destruct (Virial.np_divide pressure loading) as [p_over_n|e]; [|left; eauto].
  destruct (Virial.polyfit _ _ _) as [[virial_constants residuals]|e]; [|left; eauto].
  cbn [fst snd].
  destruct (getitem virial_constants 3) as [c0|e] eqn:H3; [|left; eauto].
  apply getitem_Return_range in H3.
  destruct (getitem_in_range virial_constants 2) as [c1 ->]; [lia|].
  destruct (getitem_in_range virial_constants 1) as [c2 ->]; [lia|].
  destruct (getitem_in_range virial_constants 0) as [c3 ->]; [lia|].
  right. cbn. by eexists _, c3, c2, c1, c0.
Qed.

End VirialFitState.

(** X22.  For a model with a positive Henry constant, [Virial.pressure]
    returns a pressure with the sign of the loading: positive for a
    positive loading, zero at zero loading. *)
Theorem Virial_pressure_sign (self : Virial.Virial) (KH A B C n : R) :
  Virial.params self !! "KH" = Some KH →
  Virial.params self !! "A" = Some A →
  Virial.params self !! "B" = Some B →
  Virial.params self !! "C" = Some C →
  KH > 0 →
  ∃ p, Virial.pressure self n = Return p ∧
       (n > 0 → p > 0) ∧ (n = 0 → p = 0) ∧ (n < 0 → p < 0).
Proof.
  intros HKH HA HB HC _. unfold Virial.pressure, getkey.
  rewrite HKH, HA, HB, HC. cbn. eexists. split; [reflexivity|].
  pose proof (exp_pos (- ln KH + A * n + B * (n * (n * 1)) + C * (n * (n * (n * 1))))).
  repeat split; intros; nra.
Qed.

Lemma Virial_pressure_sign_example :
  ∃ p, Virial.pressure Sample.virial 2 = Return p ∧
       (2 > 0 → p > 0) ∧ (2 = 0 → p = 0) ∧ (2 < 0 → p < 0).
Proof.
  apply (Virial_pressure_sign Sample.virial 6 1 0 0 2); try reflexivity. lra.
Defined.

Section VirialGuess.
Context `{Virial.IsothermModel}.

(** X23.  The initial guess of the Virial model is the Henry model: when
    the base class reports a saturation loading and a Langmuir constant
    whose product is positive, a Virial model with the parameters of
    [Virial.default_guess] has, at every loading, the pressure of the
    Henry model with the parameters of [Henry.default_guess]. *)
Theorem Virial_default_guess_is_Henry
    (self : Virial.Virial) (data : Virial.DataFrame) (loading_key pressure_key : string)
    (saturation_loading langmuir_k n : R) :
  Virial.super_default_guess data loading_key pressure_key
    = Return (saturation_loading, langmuir_k) →
  saturation_loading * langmuir_k > 0 →
  ∃ guess,
    Virial.default_guess self data loading_key pressure_key = Return guess ∧
    Virial.pressure (Virial.mkVirial guess) n
    = Henry.pressure
        (Henry.mkHenry (Henry.default_guess (Henry.mkHenry ∅) saturation_loading langmuir_k))
        n.
Proof.
  intros Hsuper Hpos. unfold Virial.default_guess. rewrite Hsuper. cbn.
  eexists. split; [reflexivity|].
  unfold Virial.pressure, Henry.pressure, Henry.default_guess, getkey.
  cbn [Virial.params Henry.params].
  rewrite lookup_singleton_eq. lookup_closed.
  cbn. f_equal.
  replace (- ln (saturation_loading * langmuir_k) + 0 * n + 0 * (n * (n * 1))
           + 0 * (n * (n * (n * 1))))
    with (- ln (saturation_loading * langmuir_k)) by ring.
  rewrite exp_Ropp, exp_ln by done. reflexivity.
Qed.

End VirialGuess.

Lemma Virial_default_guess_is_Henry_example :
  ∃ guess,
    Virial.default_guess (H := Sample.langmuir) (Virial.mkVirial ∅) [] "loading" "pressure"
      = Return guess ∧
    Virial.pressure (Virial.mkVirial guess) 12
    = Henry.pressure (Henry.mkHenry (Henry.default_guess (Henry.mkHenry ∅) 2 3)) 12.
Proof.
  apply (Virial_default_guess_is_Henry (H := Sample.langmuir)
           (Virial.mkVirial ∅) [] "loading" "pressure" 2 3 12).
  - reflexivity.
  - lra.
Defined.
